(** * MINCARE wellness signal engine: a shallow embedding of the decision
      logic of the React components and the properties it satisfies.

    Components embedded (one module per source file):
    - [MoodJournal]  : [analyzeSentiment], [generateInsights], [handleSave]
    - [StressSnap]   : [calculateStressLevel], [recordReading],
                       [loadReadings], [getStressColor], [getStressLabel],
                       [avgStress]
    - [SleepPal]     : [saveSleepSession] and the form, [avgSleep],
                       [avgQuality], [loadTips], [generateTips], the history
                       line
    - [MindGym]      : [completeExercise], [loadProgress], [BreathingTimer]
    - [Dashboard]    : [calculatedScore], [getScoreLabel], [getScoreColor],
                       [loadDashboardData], [loadDailyFlow]
    - [CalmCircle]   : [loadPosts], [submitPost] under the policies of
                       [calm_circle_posts]

    Numbers.  A JavaScript [number] is an IEEE-754 binary64 value.  Where
    the source computes with fractions (the 0.1 steps of the sentiment score,
    the sleep and stress averages, the thresholds 0.3, 7 and 9, the products
    with the draws of [Math.random]) the embedding uses [spec_float] with
    precision 53 and exponent bound 1024, so every rounding of the source is
    a rounding of the model.  Where a number is an
    integer by construction (array lengths, integer columns of the schema,
    millisecond timestamps) it is a [Z]: binary64 is exact on integers below
    2^53. *)

From Stdlib Require Import ZArith QArith Qround Qabs Qpower Lia Bool Ascii String.
From Stdlib Require Import Floats.SpecFloat.
From stdpp Require Import gmap strings list fin_maps.

Open Scope Z_scope.

(* ===================================================================== *)
(** ** JavaScript numbers and the [Math] functions the source calls       *)
(* ===================================================================== *)

Module JS.

Definition prec : Z := 53.
Definition emax : Z := 1024.

(** A JavaScript number. *)
Definition number : Type := spec_float.

Definition add : number -> number -> number := SFadd prec emax.
Definition sub : number -> number -> number := SFsub prec emax.
Definition mul : number -> number -> number := SFmul prec emax.
Definition div : number -> number -> number := SFdiv prec emax.
Definition neg : number -> number := SFopp.

(** [x < y], [x <= y], [x > y], [x >= y]: false as soon as one side is NaN. *)
Definition lt (x y : number) : bool := SFltb x y.
Definition le (x y : number) : bool := SFleb x y.
Definition gt (x y : number) : bool := SFltb y x.
Definition ge (x y : number) : bool := SFleb y x.

(** The number denoted by an integer literal or an integer value. *)
Definition of_Z (z : Z) : number := binary_normalize prec emax z 0 false.

(** The number denoted by the decimal literal [n/d]: the binary64 value
    nearest to the quotient. *)
Definition lit (n d : Z) : number := div (of_Z n) (of_Z d).

(** [0.1] is 0x1.999999999999ap-4 and [0.3] is 0x1.3333333333333p-2. *)
Definition n0_1 : number := S754_finite false 7205759403792794 (-56).
Definition n0_3 : number := S754_finite false 5404319552844595 (-54).
Definition zero : number := S754_zero false.

#[global] Instance number_eq_dec : EqDecision number.
Proof. solve_decision. Defined.

(** [Math.min] and [Math.max] on two arguments: NaN is contagious and
    [-0] is smaller than [+0]. *)
Definition Math_min (x y : number) : number :=
  match x, y with
  | S754_nan, _ | _, S754_nan => S754_nan
  | S754_zero sx, S754_zero sy => S754_zero (sx || sy)
  | _, _ => if lt y x then y else x
  end.

Definition Math_max (x y : number) : number :=
  match x, y with
  | S754_nan, _ | _, S754_nan => S754_nan
  | S754_zero sx, S754_zero sy => S754_zero (sx && sy)
  | _, _ => if lt x y then y else x
  end.

(** [Math.round]: the integer nearest to [x], ties towards +infinity,
    that is floor(x + 1/2) computed without intermediate rounding; a zero
    result keeps the sign of [x].  A finite number with a non-negative
    exponent is already an integer. *)
Definition Math_round (x : number) : number :=
  match x with
  | S754_finite s m e =>
      if 0 <=? e then x
      else binary_normalize prec emax
             ((2 * cond_Zopp s (Zpos m) + 2 ^ (- e)) / 2 ^ (1 - e)) 0 s
  | _ => x
  end.

(** [Math.round] on an integer-valued number, by the same rule
    floor(x + 1/2). *)
Definition Math_round_Z (z : Z) : Z := Qfloor (inject_Z z + (1 # 2)).

(** [Math.floor(a / b)] for integers [a] and [b > 0]: a quotient that is
    not an integer is at least 1/b away from one, far more than the
    rounding of the division, so the floor is that of the exact quotient. *)
Definition Math_floor_div (a b : Z) : Z := a / b.

(** [Math.floor] on a number.  NaN, the infinities and the two zeros are
    returned as they are.  The floor of a finite number is an integer that
    binary64 holds exactly, so it is the number of that integer; shifting
    by a negative exponent divides rounding down. *)
Definition Math_floor (x : number) : number :=
  match x with
  | S754_finite s m e => of_Z (Z.shiftl (cond_Zopp s (Zpos m)) e)
  | _ => x
  end.

(** The integer a number is, when it is one. *)
Definition to_integer (x : number) : option Z :=
  match x with
  | S754_zero _ => Some 0
  | S754_finite s m e =>
      if 0 <=? e then Some (cond_Zopp s (Zpos m) * 2 ^ e)
      else if Zpos m mod 2 ^ (- e) =? 0
           then Some (cond_Zopp s (Zpos m) / 2 ^ (- e))
           else None
  | _ => None
  end.

(** [a[i]] on an array: the element of index [i] when [i] is an integer
    from 0 to [a.length - 1], and [undefined] otherwise (an array has no
    other property that a number names). *)
Definition element {A} (a : list A) (i : number) : option A :=
  match to_integer i with
  | Some k => if (0 <=? k) && (k <? Z.of_nat (length a))
              then a !! Z.to_nat k else None
  | None => None
  end.

(** The rational denoted by a finite number ([None] for NaN and the
    infinities). *)
Definition to_Q (x : number) : option Q :=
  match x with
  | S754_zero _ => Some 0%Q
  | S754_finite s m e => Some (inject_Z (cond_Zopp s (Zpos m)) * Qpower 2 e)%Q
  | _ => None
  end.

(** A well-formed binary64 value: the mantissa of a finite number is
    canonical and its exponent in range. *)
Definition valid (x : number) : bool := valid_binary prec emax x.

(** What [Math.random()] returns: a number with positive sign, at least
    +0 and less than 1. *)
Definition is_draw (x : number) : bool :=
  valid x && lt x (of_Z 1)
  && match x with
     | S754_zero false | S754_finite false _ _ => true
     | _ => false
     end.

(** The rational [m * 2^e] denoted by a mantissa and an exponent. *)
Definition magnitude (m : positive) (e : Z) : Q :=
  (inject_Z (Zpos m) * Qpower 2 e)%Q.

(** The test the comparisons with the literal 0.3 perform on a mantissa
    and an exponent: 0.3 has exponent -54 and mantissa 5404319552844595. *)
Definition above_0_3 (m : positive) (e : Z) : bool :=
  match -54 ?= e with
  | Lt => true
  | Gt => false
  | Eq => match (5404319552844595 ?= m)%positive with
          | Lt => true
          | _ => false
          end
  end.

(** [String.prototype.toLowerCase], on the ASCII letters; strings are
    sequences of 8-bit code units and other units are left as they are. *)
Definition lower_ascii (c : ascii) : ascii :=
  let n := nat_of_ascii c in
  if ((65 <=? n) && (n <=? 90))%nat then ascii_of_nat (n + 32) else c.

Fixpoint toLowerCase (s : string) : string :=
  match s with
  | EmptyString => EmptyString
  | String c s' => String (lower_ascii c) (toLowerCase s')
  end.

(** [s.includes(w)]: [w] occurs in [s] as a contiguous substring. *)
Fixpoint includes (s w : string) : bool :=
  if String.prefix w s then true
  else match s with
       | EmptyString => false
       | String _ s' => includes s' w
       end.


(** [!s.trim()]: the trimmed string is empty exactly when every code unit
    is white space.  Of the 8-bit code units these are tab, line feed,
    vertical tab, form feed, carriage return, space and no-break space; the
    white space beyond U+00FF is outside the strings of the model. *)
Definition is_white_space (c : ascii) : bool :=
  let n := nat_of_ascii c in
  ((9 <=? n) && (n <=? 13) || (n =? 32) || (n =? 160))%nat.

Fixpoint blank (s : string) : bool :=
  match s with
  | EmptyString => true
  | String c s' => is_white_space c && blank s'
  end.

(** [q] written with [j] more binary zeros. *)
Definition shiftn (j : nat) (q : positive) : positive := Nat.iter j xO q.

(** The finite number whose mantissa is the integer [p] normalised to 53
    binary digits. *)
Definition canon (p : positive) : number :=
  S754_finite false (shiftn (Z.to_nat (53 - Zpos (digits2_pos p))) p)
              (Zpos (digits2_pos p) - 53).

(** [xs.reduce((acc, x) => acc + x, 0)] on integers, and the integers
    from [a] to [b]. *)
Definition sumZ (l : list Z) : Z := foldr Z.add 0 l.

Definition zrange (a b : Z) : list Z :=
  map (fun i => a + Z.of_nat i) (seq 0 (Z.to_nat (b - a + 1))).

End JS.

(* ===================================================================== *)
(** ** MoodJournal.tsx                                                    *)
(* ===================================================================== *)

Module MoodJournal.
Import JS.

Definition positiveWords : list string :=
  ["happy"; "good"; "great"; "wonderful"; "excellent";
   "love"; "joy"; "peace"; "calm"; "grateful"]%string.

Definition negativeWords : list string :=
  ["sad"; "bad"; "terrible"; "awful"; "hate";
   "angry"; "stress"; "anxious"; "worried"; "pain"]%string.

(** The running total after the two [forEach] loops, before the clamp. *)
Definition rawScore (text : string) : number :=
  let lowerText := toLowerCase text in
  let score := zero in
  let score :=
    fold_left (fun score word =>
                 if includes lowerText word then add score n0_1 else score)
              positiveWords score in
  let score :=
    fold_left (fun score word =>
                 if includes lowerText word then sub score n0_1 else score)
              negativeWords score in
  score.

Definition analyzeSentiment (text : string) : number :=
  Math_max (neg (of_Z 1)) (Math_min (of_Z 1) (rawScore text)).

(** How many words of a vocabulary occur in the lower-cased text; a word
    is counted once however often it occurs. *)
Definition occurring (words : list string) (text : string) : nat :=
  length (filter (fun word => includes (toLowerCase text) word = true) words).

(** The number reached from 0 by [p] additions of 0.1 followed by [n]
    subtractions of 0.1. *)
Definition accumulate (p n : nat) : number :=
  Nat.iter n (fun score => sub score n0_1)
           (Nat.iter p (fun score => add score n0_1) zero).

(** What is checked of each of the 121 reachable totals: it is a
    well-formed number, it lies between -1 and 1 (as a number and as the
    rational it denotes), the clamp returns it unchanged, and it is within
    2^-53 of (p - n) / 10. *)
Definition total_ok (p n : nat) : bool :=
  let t := accumulate p n in
  valid t && le (neg (of_Z 1)) t && le t (of_Z 1)
  && bool_decide (Math_max (neg (of_Z 1)) (Math_min (of_Z 1) t) = t)
  && match to_Q t with
     | Some q =>
         Qle_bool (-1) q && Qle_bool q 1
         && Qle_bool
              (Qabs (q - (inject_Z (Z.of_nat p) - inject_Z (Z.of_nat n)) / 10))
              (1 # 9007199254740992)
     | None => false
     end.

(** The [insights] object of [generateInsights]: the six own properties of
    the literal, from mood category to its pool of messages.  What the
    object inherits from its prototype is [Object_prototype] below. *)
Definition insights : gmap string (list string) :=
  list_to_map
    [("anxious",
      ["Try the 4-7-8 breathing technique to calm your nervous system.";
       "Consider a 5-minute meditation to ground yourself.";
       "Take a short walk outside to reset your mind."]);
     ("sad",
      ["Reach out to a friend or loved one for connection.";
       "Practice self-compassion - it's okay to feel this way.";
       "Try gentle movement like yoga or stretching."]);
     ("frustrated",
      ["Take a brief break to reset before continuing.";
       "Journal about what's causing frustration to gain clarity.";
       "Try progressive muscle relaxation to release tension."]);
     ("tired",
      ["Consider your sleep schedule - are you getting 7-9 hours?";
       "A 10-minute power nap might help recharge.";
       "Review your evening routine for better rest tonight."]);
     ("happy",
      ["Great! Capture this moment in your gratitude journal.";
       "Share your positivity with the CalmCircle community.";
       "Notice what contributed to this feeling."]);
     ("calm",
      ["Wonderful! You're in a great state for meditation or reflection.";
       "This is an ideal time for creative work or planning.";
       "Consider what helped you reach this peaceful state."])]%string.

(** The values of [MOOD_OPTIONS]: the moods the journal offers. *)
Definition knownMoods : list string :=
  ["happy"; "sad"; "anxious"; "calm"; "frustrated"; "tired"]%string.

Definition fallbackInsight : string :=
  "Keep tracking your mood to identify patterns.".

Definition selfCareSuffix : string :=
  " Your entry suggests you might benefit from extra self-care today.".

Definition positiveSuffix : string :=
  " Your positive energy is wonderful to see!".

(** The members an object literal inherits from [Object.prototype], each
    with its [length]: the eleven methods, which are functions, and the
    accessor [__proto__], which gives the prototype itself, an object
    without [length]. *)
Definition Object_prototype : gmap string (option nat) :=
  list_to_map
    [("constructor", Some 1); ("hasOwnProperty", Some 1);
     ("isPrototypeOf", Some 1); ("propertyIsEnumerable", Some 1);
     ("toLocaleString", Some 0); ("toString", Some 0); ("valueOf", Some 0);
     ("__defineGetter__", Some 2); ("__defineSetter__", Some 2);
     ("__lookupGetter__", Some 1); ("__lookupSetter__", Some 1);
     ("__proto__", None)]%string%nat.

(** What [insights[mood]] finds: a pool of the literal, or an inherited
    member with its [length]. *)
Inductive Found :=
  | Pool (pool : list string)
  | Member (length : option nat).

(** [insights[mood]]: the own property first, then the prototype;
    [None] is [undefined]. *)
Definition lookup_insights (mood : string) : option Found :=
  match insights !! mood with
  | Some pool => Some (Pool pool)
  | None => Member <$> Object_prototype !! mood
  end.

(** [insights[mood] || [fallback]]: arrays, functions and objects are
    truthy, so the fallback is taken exactly when nothing is found. *)
Definition moodInsights (mood : string) : Found :=
  default (Pool [fallbackInsight]) (lookup_insights mood).

(** [moodInsights.length] as the product uses it: [undefined] is NaN
    there. *)
Definition length_of (found : Found) : number :=
  match found with
  | Pool pool => of_Z (Z.of_nat (length pool))
  | Member (Some n) => of_Z (Z.of_nat n)
  | Member None => S754_nan
  end.

(** [moodInsights[i]]: a function and the prototype object have no
    property that a number names. *)
Definition at_index (found : Found) (i : number) : option string :=
  match found with
  | Pool pool => element pool i
  | Member _ => None
  end.

(** [Math.floor(Math.random() * length)], the product in binary64. *)
Definition randomIndex (rnd length : number) : number :=
  Math_floor (mul rnd length).

(** A value in a template literal: [undefined] reads "undefined". *)
Definition template (v : option string) : string :=
  default "undefined"%string v.

(** [generateInsights(mood, text, sentiment)], with the draw of
    [Math.random()] as an explicit argument.  The result is a string or
    [undefined] ([None]). *)
Definition generateInsights (rnd : number) (mood text : string)
                            (sentiment : number) : option string :=
  let moodInsights := moodInsights mood in
  let randomInsight :=
    at_index moodInsights (randomIndex rnd (length_of moodInsights)) in
  if lt sentiment (neg n0_3) then
    Some (template randomInsight ++ selfCareSuffix)%string
  else if gt sentiment n0_3 then
    Some (template randomInsight ++ positiveSuffix)%string
  else randomInsight.


(** A row of [mood_entries], as the insert sends it: the column
    [sentiment_score] is a decimal(3,2), so the database keeps the score
    rounded to two decimals, and an [ai_insights] that is [undefined] is
    left out of the request. *)
Record MoodEntry := {
  mood_type : string;
  entry_text : string;
  sentiment_score : number;
  ai_insights : option string;
  shared_to_community : bool
}.

(** The form of the journal and the table. *)
Record State := {
  selectedMood : string;
  entryText : string;
  shareToCommunity : bool;
  table : list MoodEntry
}.

(** [handleSave], with the draw of [Math.random()] and the outcome of the
    insert ([error]) as arguments.  The form is reset only when the insert
    succeeded. *)
Definition handleSave (rnd : number) (error : bool) (st : State) : State :=
  if String.eqb (selectedMood st) EmptyString || blank (entryText st) then st
  else
    let sentiment := analyzeSentiment (entryText st) in
    let insights :=
      generateInsights rnd (selectedMood st) (entryText st) sentiment in
    if error then st
    else
      {| selectedMood := EmptyString;
         entryText := EmptyString;
         shareToCommunity := false;
         table := table st ++
           [ {| mood_type := selectedMood st;
                entry_text := entryText st;
                sentiment_score := sentiment;
                ai_insights := insights;
                shared_to_community := shareToCommunity st |} ] |}.

(** What is checked of each of the 121 reachable totals for the sign of
    the score and for the two thresholds of [generateInsights], in terms of
    the numbers [p] and [n] of positive and negative words. *)
Definition verdict_ok (p n : nat) : bool :=
  let t := accumulate p n in
  Bool.eqb (lt t (neg n0_3))
           ((p + 4 <=? n) || ((n =? p + 3) && (p <=? 2)))%nat
  && Bool.eqb (gt t n0_3) (n + 3 <=? p)%nat
  && Bool.eqb (lt t zero) (p <? n)%nat
  && Bool.eqb (lt zero t) ((n <? p) || ((n =? p) && (3 <=? p)))%nat.

End MoodJournal.

(* ===================================================================== *)
(** ** StressSnap.tsx                                                     *)
(* ===================================================================== *)

Module StressSnap.

(** The heart rate is the integer column [heart_rate]. *)
Definition calculateStressLevel (hr : Z) : Z :=
  if hr <? 60 then 2
  else if hr <? 70 then 3
  else if hr <? 80 then 5
  else if hr <? 90 then 7
  else if hr <? 100 then 8
  else 9.


(** The options of the data-source selector, which are the values the
    column [data_source] admits. *)
Inductive DataSource := manual | watch | camera | sensor.

(** A row of [stress_readings]. *)
Record StressReading := {
  heart_rate : Z;
  stress_level : Z;
  data_source : DataSource;
  intervention_triggered : bool
}.

(** The inputs of the component and the table (oldest row first). *)
Record State := {
  heartRate : Z;
  dataSource : DataSource;
  table : list StressReading
}.


(** [loadReadings]: the ten most recent rows, most recent first. *)
Definition loadReadings (st : State) : list StressReading :=
  firstn 10 (rev (table st)).

Definition getStressColor (level : JS.number) : string :=
  if JS.le level (JS.of_Z 3) then "from-green-400 to-emerald-400"
  else if JS.le level (JS.of_Z 6) then "from-yellow-400 to-orange-400"
  else "from-red-400 to-pink-400".

Definition getStressLabel (level : JS.number) : string :=
  if JS.le level (JS.of_Z 3) then "Low"
  else if JS.le level (JS.of_Z 6) then "Moderate"
  else "High".

Definition avgStress (readings : list StressReading) : JS.number :=
  if (0 <? length readings)%nat then
    JS.Math_round
      (JS.div (fold_left (fun acc r => JS.add acc (JS.of_Z (stress_level r)))
                         readings JS.zero)
              (JS.of_Z (Z.of_nat (length readings))))
  else JS.zero.

(** What is checked of the average of [n] levels that sum to [s]: the
    number computed is the integer nearest to s / n, ties upwards. *)
Definition stress_mean_ok (n s : Z) : bool :=
  bool_decide (JS.Math_round (JS.div (JS.of_Z s) (JS.of_Z n))
               = JS.of_Z ((2 * s + n) / (2 * n))).

End StressSnap.

(* ===================================================================== *)
(** ** CalmCircle.tsx: the SleepPal component                             *)
(* ===================================================================== *)

Module SleepPal.
Import JS.

(** A row of the table [sleep_sessions].  Timestamps are instants in
    milliseconds since the epoch, as [Date.prototype.getTime] gives. *)
Record SleepSession := {
  sleep_start : Z;
  sleep_end : Z;
  duration_minutes : Z;
  quality_score : Z;
  bedtime_routine_followed : bool
}.

(** The state the save handler reads and writes: the form fields and
    the table.  A [datetime-local] field holds either the empty string
    ([None]) or a date and time, which [new Date] turns into an instant. *)
Record State := {
  sleepStart : option Z;
  sleepEnd : option Z;
  quality : Z;
  routineFollowed : bool;
  showNewSession : bool;
  table : list SleepSession
}.

Definition saveSleepSession (st : State) : State :=
  match sleepStart st, sleepEnd st with
  | Some start, Some end_ =>
      let durationMinutes := Math_floor_div (end_ - start) 60000 in
      {| showNewSession := false;
         sleepStart := None;
         sleepEnd := None;
         quality := 7;
         routineFollowed := false;
         table := table st ++
           [ {| sleep_start := start;
                sleep_end := end_;
                duration_minutes := durationMinutes;
                quality_score := quality st;
                bedtime_routine_followed := routineFollowed st |} ] |}
  | _, _ => st
  end.

(** [sessions.reduce((acc, s) => acc + f(s), 0)] *)
Definition reduce_sum {A} (f : A -> Z) (l : list A) : number :=
  fold_left (fun acc s => add acc (of_Z (f s))) l zero.

Definition length_number {A} (l : list A) : number :=
  of_Z (Z.of_nat (length l)).

Definition avgSleep (sessions : list SleepSession) : number :=
  if (0 <? length sessions)%nat then
    div (Math_round
           (mul (div (div (reduce_sum duration_minutes sessions)
                          (length_number sessions))
                     (of_Z 60))
                (of_Z 10)))
        (of_Z 10)
  else zero.

Definition avgQuality (sessions : list SleepSession) : number :=
  if (0 <? length sessions)%nat then
    div (Math_round
           (mul (div (reduce_sum quality_score sessions)
                     (length_number sessions))
                (of_Z 10)))
        (of_Z 10)
  else zero.


(** What the user does with the sleep form. *)
Inductive Action :=
  | SetSleepStart (v : option Z)
  | SetSleepEnd (v : option Z)
  | SetQuality (v : Z)
  | SetRoutineFollowed (v : bool)
  | SetShowNewSession (v : bool)
  | Save.

Definition act (st : State) (a : Action) : State :=
  match a with
  | SetSleepStart v =>
      {| sleepStart := v; sleepEnd := sleepEnd st; quality := quality st;
         routineFollowed := routineFollowed st;
         showNewSession := showNewSession st; table := table st |}
  | SetSleepEnd v =>
      {| sleepStart := sleepStart st; sleepEnd := v; quality := quality st;
         routineFollowed := routineFollowed st;
         showNewSession := showNewSession st; table := table st |}
  | SetQuality v =>
      {| sleepStart := sleepStart st; sleepEnd := sleepEnd st; quality := v;
         routineFollowed := routineFollowed st;
         showNewSession := showNewSession st; table := table st |}
  | SetRoutineFollowed v =>
      {| sleepStart := sleepStart st; sleepEnd := sleepEnd st;
         quality := quality st; routineFollowed := v;
         showNewSession := showNewSession st; table := table st |}
  | SetShowNewSession v =>
      {| sleepStart := sleepStart st; sleepEnd := sleepEnd st;
         quality := quality st; routineFollowed := routineFollowed st;
         showNewSession := v; table := table st |}
  | Save => saveSleepSession st
  end.

Definition run (st : State) (actions : list Action) : State :=
  fold_left act actions st.

(** The component as mounted: empty form, quality 7. *)
Definition initial (rows : list SleepSession) : State :=
  {| sleepStart := None; sleepEnd := None; quality := 7;
     routineFollowed := false; showNewSession := false; table := rows |}.

(** The sleep history line [Math.floor(d / 60)]h [d % 60]m: [%] is the
    remainder that takes the sign of the dividend. *)
Definition historyHours (duration_minutes : Z) : Z :=
  Math_floor_div duration_minutes 60.

Definition historyMinutes (duration_minutes : Z) : Z :=
  Z.rem duration_minutes 60.

(** A row of [sleep_tips]. *)
Record SleepTip := { tip_text : string; tip_type : string }.

Definition newTips : list SleepTip :=
  [ {| tip_text := "Avoid screens 1 hour before bedtime for better melatonin production"; tip_type := "routine" |};
    {| tip_text := "Keep your bedroom cool (60-67Â°F) for optimal sleep"; tip_type := "environment" |};
    {| tip_text := "Try gentle stretching or yoga 30 minutes before bed"; tip_type := "exercise" |} ]%string.

(** The values the column [tip_type] admits. *)
Definition tipTypes : list string :=
  ["routine"; "environment"; "exercise"; "nutrition"; "timing"]%string.

(** [generateTips]: the table of tips (oldest first) and the tips shown. *)
Definition generateTips (tipTable : list SleepTip)
  : list SleepTip * list string :=
  (tipTable ++ newTips, map tip_text newTips).

(** [loadTips]: the three most recent tips when the query returns rows
    ([data] is [Some], possibly of no row), the generated ones when it
    fails. *)
Definition loadTips (failed : bool) (tipTable : list SleepTip)
  : list SleepTip * list string :=
  if failed then generateTips tipTable
  else (tipTable, map tip_text (firstn 3 (rev tipTable))).

(** What is checked of the average of [n] qualities that sum to [s]. *)
Definition quality_mean_ok (n s : Z) : bool :=
  bool_decide (Math_round (mul (div (of_Z s) (of_Z n)) (of_Z 10))
               = of_Z ((20 * s + n) / (2 * n))).

End SleepPal.

(* ===================================================================== *)
(** ** MindGym.tsx (and its second copy with the exercise view)           *)
(* ===================================================================== *)

Module MindGym.

Record UserProgress := {
  streak_count : Z;
  fitness_level : Z;
  total_completed : Z
}.

(** A row inserted into [mindgym_progress]. *)
Record ProgressRow := {
  row_exercise_id : string;
  row_score : Z;
  row_streak_count : Z;
  row_fitness_level : Z
}.

Record State := {
  progress : UserProgress;
  activeExercise : option string;
  table : list ProgressRow
}.

Definition newFitnessLevel (p : UserProgress) : Z :=
  Z.min 100 (fitness_level p + 1).

Definition newStreak (p : UserProgress) : Z :=
  streak_count p + 1.

(** [completeExercise] of MindGym.tsx. *)
Definition completeExercise (st : State) (exerciseId : string) (score : Z)
  : State :=
  let newFitnessLevel := newFitnessLevel (progress st) in
  let newStreak := newStreak (progress st) in
  {| table := table st ++
       [ {| row_exercise_id := exerciseId;
            row_score := score;
            row_streak_count := newStreak;
            row_fitness_level := newFitnessLevel |} ];
     progress :=
       {| streak_count := newStreak;
          fitness_level := newFitnessLevel;
          total_completed := total_completed (progress st) + 1 |};
     activeExercise := activeExercise st |}.

(** [completeExercise] of the second copy, which also closes the
    exercise view. *)
Definition completeExercise_view (st : State) (exerciseId : string)
                                 (score : Z) : State :=
  let st' := completeExercise st exerciseId score in
  {| table := table st';
     progress := progress st';
     activeExercise := None |}.


(** The component as mounted, before any row is loaded. *)
Definition initial : State :=
  {| progress := {| streak_count := 0; fitness_level := 1;
                    total_completed := 0 |};
     activeExercise := None;
     table := [] |}.

(** [loadProgress]: the latest row (the table lists the oldest first) and
    the number of rows; nothing changes when there is no row. *)
Definition loadProgress (st : State) : State :=
  match rev (table st) with
  | latest :: _ =>
      {| progress :=
           {| streak_count := row_streak_count latest;
              fitness_level := row_fitness_level latest;
              total_completed := Z.of_nat (length (table st)) |};
         activeExercise := activeExercise st;
         table := table st |}
  | [] => st
  end.

(** The score handed to [completeExercise] when the timer ends:
    [Math.floor(Math.random() * 40) + 60], in binary64, with the draw of
    [Math.random()] as an explicit argument. *)
Definition timerScore (rnd : JS.number) : JS.number :=
  JS.add (JS.Math_floor (JS.mul rnd (JS.of_Z 40))) (JS.of_Z 60).

(** [BreathingTimer]: the seconds left and whether the timer runs. *)
Record Timer := { seconds : Z; isActive : bool }.

Definition mountTimer (duration : Z) : Timer :=
  {| seconds := duration; isActive := false |}.

(** The effect installs the interval when [isActive && seconds > 0];
    otherwise, when [seconds === 0], it stops the timer and calls
    [onComplete]. *)
Definition ticking (t : Timer) : bool := isActive t && (0 <? seconds t).

Definition completes (t : Timer) : bool :=
  negb (ticking t) && (seconds t =? 0).

Definition timerEffect (t : Timer) : Timer :=
  if ticking t then t
  else if seconds t =? 0 then {| seconds := seconds t; isActive := false |}
  else t.

(** The interval fires only while it is installed. *)
Inductive TimerEvent := Tick | Toggle | Reset.

Definition timerUpdate (duration : Z) (t : Timer) (ev : TimerEvent) : Timer :=
  match ev with
  | Tick => if ticking t
            then {| seconds := seconds t - 1; isActive := isActive t |}
            else t
  | Toggle => {| seconds := seconds t; isActive := negb (isActive t) |}
  | Reset => {| seconds := duration; isActive := false |}
  end.

Definition timerStep (duration : Z) (t : Timer) (ev : TimerEvent) : Timer :=
  timerEffect (timerUpdate duration t ev).

Definition timerRun (duration : Z) (events : list TimerEvent) : Timer :=
  fold_left (timerStep duration) events (timerEffect (mountTimer duration)).

(** The display [minutes]:[remainingSeconds]. *)
Definition timerMinutes (t : Timer) : Z := JS.Math_floor_div (seconds t) 60.
Definition timerRemainingSeconds (t : Timer) : Z := Z.rem (seconds t) 60.

(** A session: exercises completed one after the other, each with the id
    of the exercise and the score. *)
Definition completeAll (st : State) (done : list (string * Z)) : State :=
  fold_left (fun st c => completeExercise st (fst c) (snd c)) done st.

End MindGym.

(* ===================================================================== *)
(** ** Dashboard.tsx                                                      *)
(* ===================================================================== *)

Module Dashboard.
Import JS.

(** The expression bound to [calculatedScore] in [loadDashboardData].
    The mood count is an array length, the fitness level and the streak
    are integer columns; the two averages are numbers. *)
Definition calculatedScore (moodCount exercisesCompleted : Z)
                           (avgStress avgSleep : number)
                           (streakDays : Z) : Z :=
  Z.min 100 (Math_round_Z (
    (if 0 <? moodCount then 20 else 0) +
    (if 0 <? exercisesCompleted then 25 else 0) +
    (if gt avgStress zero && le avgStress (of_Z 5) then 20
     else if gt avgStress (of_Z 5) then 10 else 0) +
    (if ge avgSleep (of_Z 7) && le avgSleep (of_Z 9) then 25
     else if gt avgSleep zero then 15 else 0) +
    (streakDays * 2))).

Definition getScoreLabel (score : Z) : string :=
  if 75 <=? score then "Excellent"
  else if 50 <=? score then "Good"
  else if 25 <=? score then "Fair"
  else "Needs Attention".

(** What [loadDashboardData] reads from the backend for one user.  Each
    table is listed in the order of its query (most recent first).
    [profile] is [None] when the user has no row and [Some None] when the
    column [wellness_score] is null. *)
Record Backend := {
  profile : option (option Z);
  mood_entries : nat;
  mindgym_progress : list (Z * Z);   (* streak_count, fitness_level *)
  stress_readings : list Z;          (* stress_level *)
  sleep_sessions : list Z            (* duration_minutes *)
}.

Record DashboardData := {
  wellnessScore : Z;
  moodCount : Z;
  exercisesCompleted : Z;
  avgStress : number;
  avgSleep : number;
  streakDays : Z
}.

(** [x || d] on an optional integer: null, undefined and 0 are falsy. *)
Definition or_default (x : option Z) (d : Z) : Z :=
  match x with
  | Some v => if v =? 0 then d else v
  | None => d
  end.

Definition sum_number (l : list Z) : number :=
  fold_left (fun acc r => add acc (of_Z r)) l zero.

(** The column [wellness_score] carries CHECK (0 <= wellness_score <= 100);
    an update that violates it, or that finds no row, changes nothing. *)
Definition update_wellness_score (b : Backend) (v : Z) : Backend :=
  match profile b with
  | Some _ =>
      if (0 <=? v) && (v <=? 100) then
        {| profile := Some (Some v);
           mood_entries := mood_entries b;
           mindgym_progress := mindgym_progress b;
           stress_readings := stress_readings b;
           sleep_sessions := sleep_sessions b |}
      else b
  | None => b
  end.

(** [{ ...prev, wellnessScore: v }] *)
Definition setWellnessScore (prev : DashboardData) (v : Z) : DashboardData :=
  {| wellnessScore := v;
     moodCount := moodCount prev;
     exercisesCompleted := exercisesCompleted prev;
     avgStress := avgStress prev;
     avgSleep := avgSleep prev;
     streakDays := streakDays prev |}.

(** The first half of [loadDashboardData]: the five queries and the
    aggregates handed to the first [setData]. *)
Definition readDashboardData (b : Backend) : DashboardData :=
  let stressData := firstn 7 (stress_readings b) in
  let sleepData := firstn 7 (sleep_sessions b) in
  let latest := head (mindgym_progress b) in
  {| wellnessScore := or_default (mjoin (profile b)) 50;
     moodCount := Z.of_nat (mood_entries b);
     exercisesCompleted := or_default (snd <$> latest) 0;
     avgStress :=
       if (0 <? length stressData)%nat then
         Math_round (div (sum_number stressData)
                         (of_Z (Z.of_nat (length stressData))))
       else zero;
     avgSleep :=
       if (0 <? length sleepData)%nat then
         div (Math_round
                (mul (div (div (sum_number sleepData)
                               (of_Z (Z.of_nat (length sleepData))))
                          (of_Z 60))
                     (of_Z 10)))
             (of_Z 10)
       else zero;
     streakDays := or_default (fst <$> latest) 0 |}.

(** [loadDashboardData]: read, recompute the score from the aggregates,
    and write it through when it differs from the score read.  The result
    is the backend and the component data after the call. *)
Definition loadDashboardData (b : Backend) : Backend * DashboardData :=
  let data := readDashboardData b in
  let calculatedScore :=
    calculatedScore (moodCount data) (exercisesCompleted data)
                    (avgStress data) (avgSleep data) (streakDays data) in
  if calculatedScore =? wellnessScore data then (b, data)
  else (update_wellness_score b calculatedScore,
        setWellnessScore data calculatedScore).


Definition getScoreColor (score : Z) : string :=
  if 75 <=? score then "from-green-400 to-emerald-400"
  else if 50 <=? score then "from-yellow-400 to-orange-400"
  else "from-red-400 to-pink-400".

(** A row of [daily_routines]: the tasks of [routine_data] ([None] when
    the object has no [tasks]) and the flag [completed]. *)
Record Routine := { routine_tasks : option (list string); completed : bool }.

Definition defaultTasks : list string :=
  ["Morning mood check-in"; "Complete one MindGym exercise";
   "Check stress levels"; "Evening reflection"]%string.

(** [loadDailyFlow]: the routines of the user by date (the table admits
    one row per user and date) and the daily flow shown. *)
Definition loadDailyFlow (today : string) (routines : gmap string Routine)
  : gmap string Routine * (bool * list string) :=
  match routines !! today with
  | Some routine =>
      (routines, (completed routine, default [] (routine_tasks routine)))
  | None =>
      (<[today := {| routine_tasks := Some defaultTasks;
                     completed := false |}]> routines,
       (false, defaultTasks))
  end.

End Dashboard.


(* ===================================================================== *)
(** ** CalmCircle.tsx: the community component and its two policies       *)
(* ===================================================================== *)

Module CalmCircle.
Import JS.

(** A row of [calm_circle_posts]. *)
Record Post := {
  post_user : string;
  group_id : string;
  content : string;
  ai_moderation_status : string
}.

(** The memberships (user, group) and the posts, oldest first. *)
Record Backend := {
  memberships : list (string * string);
  posts : list Post
}.

Record State := {
  selectedGroup : option string;
  newPost : string;
  shownPosts : list Post
}.

(** The row-level policies of [calm_circle_posts]: a user reads and
    inserts the posts of the groups they are a member of. *)
Definition member (b : Backend) (user group : string) : bool :=
  bool_decide ((user, group) ∈ memberships b).

(** The rows the query of [loadPosts] returns to [user]: approved posts of
    the group, most recent first, at most twenty. *)
Definition queryPosts (user : string) (b : Backend) (group : string)
  : list Post :=
  firstn 20
    (rev (filter (fun post =>
                    member b user (group_id post)
                    && String.eqb (group_id post) group
                    && String.eqb (ai_moderation_status post) "approved"
                    = true)
                 (posts b))).

(** The selected group when [selectedGroup] is truthy: neither null nor
    the empty string. *)
Definition chosenGroup (st : State) : option string :=
  match selectedGroup st with
  | Some group => if String.eqb group EmptyString then None else Some group
  | None => None
  end.

Definition loadPosts (user : string) (b : Backend) (st : State) : State :=
  match chosenGroup st with
  | None => st
  | Some group =>
      {| selectedGroup := selectedGroup st;
         newPost := newPost st;
         shownPosts := queryPosts user b group |}
  end.

(** [submitPost]: the insert is refused by the policy for a user who is
    not a member; the handler does not look at the outcome. *)
Definition submitPost (user : string) (b : Backend) (st : State)
  : Backend * State :=
  match chosenGroup st with
  | None => (b, st)
  | Some group =>
      if blank (newPost st) then (b, st)
      else
        let b' :=
          if member b user group then
            {| memberships := memberships b;
               posts := posts b ++
                 [ {| post_user := user;
                      group_id := group;
                      content := newPost st;
                      ai_moderation_status := "approved" |} ] |}
          else b in
        (b', loadPosts user b'
               {| selectedGroup := selectedGroup st;
                  newPost := EmptyString;
                  shownPosts := shownPosts st |})
  end.

End CalmCircle.

(* ===================================================================== *)
(** ** Concrete scenarios used by the examples below                      *)
(* ===================================================================== *)

Module Scenarios.




(** A night that starts at [start] and lasts [minutes]. *)
Definition night (start minutes quality : Z) : SleepPal.SleepSession :=
  {| SleepPal.sleep_start := start;
     SleepPal.sleep_end := start + minutes * 60000;
     SleepPal.duration_minutes := minutes;
     SleepPal.quality_score := quality;
     SleepPal.bedtime_routine_followed := false |}.

(** Three nights of 420, 480 and 450 minutes. *)
Definition threeNights : list SleepPal.SleepSession :=
  [night 1704150000000 420 7; night 1704236400000 480 8;
   night 1704322800000 450 6].

(** A user with a profile row, three journal entries, one completed
    exercise, three stress readings and three nights of sleep. *)
Definition activeUser : Dashboard.Backend :=
  {| Dashboard.profile := Some (Some 50);
     Dashboard.mood_entries := 3;
     Dashboard.mindgym_progress := [(4, 10)];
     Dashboard.stress_readings := [5; 7; 3];
     Dashboard.sleep_sessions := [420; 480; 450] |}.

End Scenarios.

(* ===================================================================== *)
(** ** Auxiliary facts                                                    *)
(* ===================================================================== *)

Section Numbers.
Import JS.

(** [Math.round] at a few points: 2.5, -2.5, 0.4, -0.4 (which gives -0),
    7.45 and 75. *)
Lemma Math_round_examples :
  Math_round (lit 5 2) = of_Z 3 /\
  Math_round (lit (-5) 2) = of_Z (-2) /\
  Math_round (lit 2 5) = zero /\
  Math_round (lit (-2) 5) = S754_zero true /\
  Math_round (lit 745 100) = of_Z 7 /\
  Math_round (of_Z 75) = of_Z 75.
Proof. repeat split; vm_compute; reflexivity. Qed.

(** The integers and the literals used by the source are well-formed. *)
Lemma literals_valid :
  valid n0_1 = true /\ valid n0_3 = true /\ valid (of_Z 1) = true /\
  valid (of_Z 5) = true /\ valid (of_Z 7) = true /\ valid (of_Z 9) = true /\
  valid (of_Z 10) = true /\ valid (of_Z 60) = true.
Proof. repeat split; vm_compute; reflexivity. Qed.

End Numbers.

Section Loops.
Context {A B : Type} (P : A -> bool) (f : B -> B).

(** A [forEach] that applies [f] to an accumulator for the elements
    satisfying [P] applies it as many times as there are such elements. *)
Lemma forEach_conditional (l : list A) (x : B) :
  fold_left (fun acc a => if P a then f acc else acc) l x
  = Nat.iter (length (filter (fun a => P a = true) l)) f x.
Proof.
  revert x. induction l as [|a l IH]; intros x; simpl; [reflexivity|].
  rewrite filter_cons. destruct (P a) eqn:Ha.
  - rewrite decide_True by reflexivity. simpl length.
    rewrite IH. symmetry. apply Nat.iter_succ_r.
  - rewrite decide_False by discriminate. apply IH.
Qed.

Lemma filter_length_le (l : list A) :
  (length (filter (fun a => P a = true) l) <= length l)%nat.
Proof. apply length_filter. Qed.
End Loops.

Module SentimentFacts.
Import JS MoodJournal.

Lemma occurring_positive_le text : (occurring positiveWords text <= 10)%nat.
Proof. apply (filter_length_le (includes (toLowerCase text)) positiveWords). Qed.

Lemma occurring_negative_le text : (occurring negativeWords text <= 10)%nat.
Proof. apply (filter_length_le (includes (toLowerCase text)) negativeWords). Qed.

(** The running total only depends on how many words of each vocabulary
    occur. *)
Lemma rawScore_accumulate text :
  rawScore text
  = accumulate (occurring positiveWords text) (occurring negativeWords text).
Proof.
  unfold rawScore, accumulate, occurring.
  rewrite (forEach_conditional (includes (toLowerCase text))
             (fun score => add score n0_1)).
  rewrite (forEach_conditional (includes (toLowerCase text))
             (fun score => sub score n0_1)).
  reflexivity.
Qed.

Lemma total_ok_all :
  forallb (fun p => forallb (total_ok p) (seq 0 11)) (seq 0 11) = true.
Proof. vm_compute. reflexivity. Qed.

Lemma total_ok_le (p n : nat) :
  (p <= 10)%nat -> (n <= 10)%nat -> total_ok p n = true.
Proof.
  intros Hp Hn.
  pose proof total_ok_all as H.
  rewrite forallb_forall in H.
  specialize (H p). rewrite forallb_forall in H.
  apply H; apply in_seq; lia.
Qed.

End SentimentFacts.

(* ===================================================================== *)
(** ** Lexicon sentiment scorer                                           *)
(* ===================================================================== *)

Section Sentiment.
Import JS MoodJournal SentimentFacts.

(** The literals of the source denote the numbers nearest to 1/10 and 3/10. *)
Lemma literals_nearest : n0_1 = lit 1 10 /\ n0_3 = lit 3 10.
Proof. split; vm_compute; reflexivity. Qed.

(** Everything the enumeration of the reachable totals gives for a text. *)
Lemma analyzeSentiment_facts (text : string) :
  let p := occurring positiveWords text in
  let n := occurring negativeWords text in
  valid (rawScore text) = true /\
  le (neg (of_Z 1)) (rawScore text) = true /\
  le (rawScore text) (of_Z 1) = true /\
  analyzeSentiment text = rawScore text /\
  exists q : Q,
    to_Q (rawScore text) = Some q /\
    (-1 <= q)%Q /\ (q <= 1)%Q /\
    (Qabs (q - (inject_Z (Z.of_nat p) - inject_Z (Z.of_nat n)) / 10)
     <= 1 # 9007199254740992)%Q.
Proof.
  intros p n. subst p n.
  pose proof (total_ok_le _ _ (occurring_positive_le text)
                (occurring_negative_le text)) as H.
  unfold total_ok in H. rewrite <- rawScore_accumulate in H.
  apply andb_prop in H. destruct H as [H Hq].
  apply andb_prop in H. destruct H as [H Hclamp].
  apply andb_prop in H. destruct H as [H Hhi].
  apply andb_prop in H. destruct H as [Hvalid Hlo].
  apply bool_decide_eq_true in Hclamp.
  repeat (split; [assumption|]).
  destruct (to_Q (rawScore text)) as [q|]; [| discriminate].
  apply andb_prop in Hq. destruct Hq as [Hq Herr].
  apply andb_prop in Hq. destruct Hq as [Hq1 Hq2].
  exists q. rewrite <- !Qle_bool_iff. repeat split; assumption.
Qed.

(** C5: the sentiment score of every text lies in [-1, 1]; the empty text
    scores exactly 0, "I am happy and love this" scores above 0 and
    "I am sad and angry" scores below 0. *)
Theorem C5_sentiment_range :
  (forall text : string,
      valid (analyzeSentiment text) = true /\
      le (neg (of_Z 1)) (analyzeSentiment text) = true /\
      le (analyzeSentiment text) (of_Z 1) = true /\
      exists q : Q,
        to_Q (analyzeSentiment text) = Some q /\ (-1 <= q)%Q /\ (q <= 1)%Q) /\
  analyzeSentiment EmptyString = zero /\
  lt zero (analyzeSentiment "I am happy and love this") = true /\
  lt (analyzeSentiment "I am sad and angry") zero = true.
Proof.
  split; [| repeat split; vm_compute; reflexivity].
  intros text.
  destruct (analyzeSentiment_facts text)
    as [Hv [Hlo [Hhi [-> [q [Hq [Hq1 [Hq2 _]]]]]]]].
  repeat (split; [assumption|]). exists q. repeat split; assumption.
Qed.

(** C10 as stated fails: with three positive and three negative words the
    source returns 2^-55, which is neither the number [0.1 * 3 - 0.1 * 3]
    nor the rational (3 - 3) / 10. *)
Lemma C10_exact_formula_fails :
  occurring positiveWords "happy good great sad bad hate" = 3%nat /\
  occurring negativeWords "happy good great sad bad hate" = 3%nat /\
  analyzeSentiment "happy good great sad bad hate"
    = S754_finite false 4503599627370496 (-107) /\
  analyzeSentiment "happy good great sad bad hate"
    <> sub (mul n0_1 (of_Z 3)) (mul n0_1 (of_Z 3)) /\
  (forall q : Q,
      to_Q (analyzeSentiment "happy good great sad bad hate") = Some q ->
      ~ (q == (inject_Z 3 - inject_Z 3) / 10)%Q).
Proof.
  repeat split; try (vm_compute; reflexivity); try (vm_compute; discriminate).
  intros q Hq. vm_compute in Hq. injection Hq as <-.
  vm_compute. discriminate.
Qed.

(** C10, amended: the score is the number reached from 0 by adding 0.1 once
    for each positive vocabulary word occurring in the lower-cased text and
    then subtracting 0.1 once for each negative one, in binary64 arithmetic;
    a word counts once however often it occurs; at most ten words of each
    vocabulary occur, the total before the clamp lies in [-1, 1] and the
    clamp returns it unchanged; the score differs from (p - n) / 10 by at
    most 2^-53. *)
Theorem C10_sentiment_accumulates :
  (forall text : string,
      let p := occurring positiveWords text in
      let n := occurring negativeWords text in
      (p <= 10)%nat /\ (n <= 10)%nat /\
      rawScore text = accumulate p n /\
      le (neg (of_Z 1)) (rawScore text) = true /\
      le (rawScore text) (of_Z 1) = true /\
      analyzeSentiment text = rawScore text /\
      exists q : Q,
        to_Q (analyzeSentiment text) = Some q /\
        (Qabs (q - (inject_Z (Z.of_nat p) - inject_Z (Z.of_nat n)) / 10)
         <= 1 # 9007199254740992)%Q) /\
  length positiveWords = 10%nat /\ length negativeWords = 10%nat /\
  analyzeSentiment "happy happy happy" = analyzeSentiment "happy" /\
  analyzeSentiment "happy" = n0_1.
Proof.
  split; [| repeat split; vm_compute; reflexivity].
  intros text p n. subst p n.
  destruct (analyzeSentiment_facts text)
    as [_ [Hlo [Hhi [Hclamp [q [Hq [_ [_ Herr]]]]]]]].
  split; [apply occurring_positive_le|].
  split; [apply occurring_negative_le|].
  split; [apply rawScore_accumulate|].
  repeat (split; [assumption|]).
  exists q. rewrite Hclamp. split; assumption.
Qed.

End Sentiment.

(* ===================================================================== *)
(** ** Insight generator                                                  *)
(* ===================================================================== *)

Section Comparisons.
Import JS.

(** Swapping the sides of a comparison reverses its outcome. *)
Lemma SFcompare_swap (x y : number) :
  SFcompare y x = CompOpp <$> SFcompare x y.
Proof.
  destruct x as [sx|sx| |sx mx ex], y as [sy|sy| |sy my ey]; simpl;
    try reflexivity; try (destruct sx; reflexivity);
    try (destruct sy; reflexivity);
    try (destruct sx, sy; reflexivity).
  destruct sx, sy; simpl; try reflexivity;
    rewrite (Z.compare_antisym ex ey);
    destruct (ex ?= ey) eqn:E; simpl; try reflexivity;
    pose proof (Pos.compare_cont_antisym mx my Eq) as H; simpl in H;
    rewrite <- H; reflexivity.
Qed.

(** [x <= y] excludes [y < x]. *)
Lemma le_not_gt (x y : number) : le x y = true -> lt y x = false.
Proof.
  unfold le, lt, SFleb, SFltb. rewrite (SFcompare_swap x y).
  destruct (SFcompare x y) as [[| |]|]; simpl; congruence.
Qed.

(** A number above 0.3 is not below -0.3. *)
Lemma above_not_below (s : number) :
  gt s n0_3 = true -> lt s (neg n0_3) = false.
Proof.
  unfold gt, lt, SFltb.
  destruct s as [sx|sx| |sx mx ex]; try destruct sx; intros H;
    first [ reflexivity | lazy in H; discriminate H ].
Qed.

(** A mantissa of [d] binary digits lies in [2^(d-1), 2^d). *)
Lemma digits2_pos_bounds (m : positive) :
  2 ^ (Zpos (digits2_pos m) - 1) <= Zpos m < 2 ^ Zpos (digits2_pos m).
Proof.
  induction m as [m IH|m IH|]; cbn [digits2_pos].
  - rewrite Pos2Z.inj_succ.
    replace (Z.succ (Zpos (digits2_pos m)) - 1) with (Z.succ (Zpos (digits2_pos m) - 1)) by lia.
    rewrite !Z.pow_succ_r by lia. lia.
  - rewrite Pos2Z.inj_succ.
    replace (Z.succ (Zpos (digits2_pos m)) - 1) with (Z.succ (Zpos (digits2_pos m) - 1)) by lia.
    rewrite !Z.pow_succ_r by lia. lia.
  - cbn. lia.
Qed.

(** A valid mantissa has at most 53 digits, and exactly 53 unless the
    exponent is the least one. *)
Lemma bounded_digits (m : positive) (e : Z) :
  bounded prec emax m e = true ->
  Zpos (digits2_pos m) <= 53 /\ (Zpos (digits2_pos m) = 53 \/ e = -1074).
Proof.
  unfold bounded, canonical_mantissa, fexp, emin, prec, emax.
  intros H. apply andb_prop in H. destruct H as [H _].
  apply Z.eqb_eq in H. lia.
Qed.

(** Above exponent -54 a valid magnitude is at least 1/2. *)
Lemma magnitude_large (m : positive) (e : Z) :
  bounded prec emax m e = true -> -54 < e -> (3 # 10 < magnitude m e)%Q.
Proof.
  intros Hb He. destruct (bounded_digits m e Hb) as [_ [Hd|Hd]]; [|lia].
  pose proof (digits2_pos_bounds m) as Hm. rewrite Hd in Hm.
  apply Qlt_le_trans with (inject_Z (2 ^ 52) * Qpower 2 (-53))%Q;
    [reflexivity|].
  unfold magnitude. apply Qmult_le_compat_nonneg.
  - split; [discriminate|]. rewrite <- Zle_Qle. lia.
  - split; [discriminate|]. apply Qpower_le_compat_l; [lia | discriminate].
Qed.

(** Below exponent -54 a valid magnitude is at most 1/4. *)
Lemma magnitude_small (m : positive) (e : Z) :
  bounded prec emax m e = true -> e < -54 -> (magnitude m e < 3 # 10)%Q.
Proof.
  intros Hb He. destruct (bounded_digits m e Hb) as [Hd _].
  pose proof (digits2_pos_bounds m) as [_ Hm].
  assert (Hm' : Zpos m <= 2 ^ 53).
  { apply Z.lt_le_incl. eapply Z.lt_le_trans; [exact Hm|].
    apply Z.pow_le_mono_r; lia. }
  apply Qle_lt_trans with (inject_Z (2 ^ 53) * Qpower 2 (-55))%Q;
    [|reflexivity].
  unfold magnitude. apply Qmult_le_compat_nonneg.
  - split; [discriminate|]. rewrite <- Zle_Qle. exact Hm'.
  - split; [apply Qpower_0_le; discriminate|].
    apply Qpower_le_compat_l; [lia | discriminate].
Qed.

(** At exponent -54 the mantissa decides. *)
Lemma magnitude_at_exponent (m : positive) :
  ((3 # 10 < magnitude m (-54))%Q <-> 5404319552844595 < Zpos m) /\
  ((magnitude m (-54) < 3 # 10)%Q <-> Zpos m <= 5404319552844595).
Proof.
  unfold magnitude.
  change (Qpower 2 (-54)) with (1 # 18014398509481984)%Q.
  unfold Qlt, Qmult, inject_Z. cbn [Qnum Qden].
  change (1 * 18014398509481984)%positive with 18014398509481984%positive.
  rewrite Z.mul_1_r.
  split; split; lia.
Qed.

Lemma magnitude_pos (m : positive) (e : Z) : (0 < magnitude m e)%Q.
Proof.
  unfold magnitude. apply Qmult_lt_0_compat; [reflexivity|].
  apply Qpower_0_lt. reflexivity.
Qed.

(** Whether a valid magnitude exceeds 3/10 is decided by [above_0_3]; it
    never equals 3/10. *)
Lemma above_0_3_exact (m : positive) (e : Z) :
  bounded prec emax m e = true ->
  (above_0_3 m e = true <-> (3 # 10 < magnitude m e)%Q) /\
  (above_0_3 m e = false <-> (magnitude m e < 3 # 10)%Q).
Proof.
  intros Hb. unfold above_0_3.
  destruct (Z.compare_spec (-54) e) as [He|He|He].
  - subst e. destruct (magnitude_at_exponent m) as [Hgt Hlt].
    destruct (Pos.compare_spec 5404319552844595 m) as [Hm|Hm|Hm];
      [apply (f_equal Zpos) in Hm
      |apply Pos2Z.pos_lt_pos in Hm
      |apply Pos2Z.pos_lt_pos in Hm];
      split; split; intros H';
      first [ reflexivity | discriminate
            | apply Hgt; lia | apply Hlt; lia
            | apply Hgt in H'; lia | apply Hlt in H'; lia ].
  - pose proof (magnitude_large m e Hb He) as H.
    split; split; intros H';
      first [ reflexivity | discriminate | exact H
            | exfalso; apply (Qlt_irrefl (3 # 10));
              eapply Qlt_trans; eassumption ].
  - pose proof (magnitude_small m e Hb He) as H.
    split; split; intros H';
      first [ reflexivity | discriminate | exact H
            | exfalso; apply (Qlt_irrefl (3 # 10));
              eapply Qlt_trans; eassumption ].
Qed.

Lemma gt_0_3_finite (sx : bool) (m : positive) (e : Z) :
  gt (S754_finite sx m e) n0_3 = negb sx && above_0_3 m e.
Proof.
  unfold gt, SFltb, n0_3, SFcompare, above_0_3. destruct sx; [reflexivity|].
  cbn [negb andb]. destruct (-54 ?= e); reflexivity.
Qed.

Lemma lt_neg_0_3_finite (sx : bool) (m : positive) (e : Z) :
  lt (S754_finite sx m e) (neg n0_3) = sx && above_0_3 m e.
Proof.
  unfold lt, SFltb, neg, n0_3, SFopp, SFcompare, above_0_3. cbn [negb].
  destruct sx; [|reflexivity]. cbn [andb].
  rewrite (Z.compare_antisym e (-54)).
  destruct (e ?= -54); cbn [CompOpp]; try reflexivity.
  rewrite Pos.compare_cont_antisym. reflexivity.
Qed.

Lemma to_Q_negative (m : positive) (e : Z) :
  (inject_Z (- Zpos m) * Qpower 2 e == - magnitude m e)%Q.
Proof.
  unfold magnitude. change (inject_Z (- Zpos m)) with (- inject_Z (Zpos m))%Q.
  ring.
Qed.

(** On a valid number the comparisons of the source with the literals 0.3
    and -0.3 decide the position of the rational it denotes with respect
    to 3/10 and -3/10. *)
Lemma thresholds_exact (s : number) (q : Q) :
  valid s = true -> to_Q s = Some q ->
  (gt s n0_3 = true <-> (3 # 10 < q)%Q) /\
  (lt s (neg n0_3) = true <-> (q < - (3 # 10))%Q).
Proof.
  intros Hv Hq. destruct s as [sx|sx| |sx m e]; try discriminate.
  - injection Hq as <-. split; split; intros H; discriminate H.
  - cbn [to_Q] in Hq. injection Hq as <-.
    rewrite gt_0_3_finite, lt_neg_0_3_finite.
    destruct (above_0_3_exact m e Hv) as [Hab Hbe].
    pose proof (magnitude_pos m e) as Hpos.
    destruct sx; cbn [negb andb cond_Zopp].
    + rewrite to_Q_negative. split.
      * split; [discriminate|]. intros H. exfalso.
        apply (Qlt_irrefl 0). apply Qlt_trans with (3 # 10)%Q; [reflexivity|].
        apply Qlt_trans with (- magnitude m e)%Q; [exact H|].
        apply (Qopp_lt_compat 0 (magnitude m e)). exact Hpos.
      * rewrite Hab. split; intros H.
        -- apply Qopp_lt_compat. exact H.
        -- apply Qopp_lt_compat in H. rewrite !Qopp_involutive in H. exact H.
    + fold (magnitude m e). split; [exact Hab|].
      split; [discriminate|]. intros H. exfalso.
      apply (Qlt_irrefl 0). apply Qlt_trans with (magnitude m e); [exact Hpos|].
      apply Qlt_trans with (- (3 # 10))%Q; [exact H | reflexivity].
Qed.

(** Unless a side is NaN, [x <= y] holds exactly when [y < x] fails. *)
Lemma le_iff_not_gt (x y : number) :
  SFcompare x y <> None -> (le x y = true <-> lt y x = false).
Proof.
  unfold le, lt, SFleb, SFltb. rewrite (SFcompare_swap x y).
  destruct (SFcompare x y) as [[| |]|]; simpl; intros H; split; congruence.
Qed.

Lemma thresholds_between (s : number) (q : Q) :
  valid s = true -> to_Q s = Some q ->
  (le (neg n0_3) s = true /\ le s n0_3 = true
   <-> (- (3 # 10) <= q)%Q /\ (q <= 3 # 10)%Q).
Proof.
  intros Hv Hq.
  destruct (thresholds_exact s q Hv Hq) as [Hgt Hlt].
  assert (H1 : SFcompare (neg n0_3) s <> None)
    by (destruct s as [sx|sx| |sx m e]; try destruct sx; discriminate).
  assert (H2 : SFcompare s n0_3 <> None)
    by (destruct s as [sx|sx| |sx m e]; try destruct sx; discriminate).
  rewrite (le_iff_not_gt _ _ H1), (le_iff_not_gt _ _ H2).
  change (lt n0_3 s) with (gt s n0_3).
  rewrite <- !not_true_iff_false, Hgt, Hlt.
  split; intros [Ha Hb]; split;
    first [ apply Qnot_lt_le; assumption | apply Qle_not_lt; assumption ].
Qed.

End Comparisons.

Section Insights.
Import JS MoodJournal.

Lemma string_length_append (s1 s2 : string) :
  String.length (s1 ++ s2) = (String.length s1 + String.length s2)%nat.
Proof. induction s1 as [|c s1 IH]; simpl; [reflexivity | now rewrite IH]. Qed.

Lemma append_suffix_neq (base suffix : string) :
  suffix <> EmptyString -> (base ++ suffix)%string <> base.
Proof.
  intros Hs E. apply (f_equal String.length) in E.
  rewrite string_length_append in E.
  destruct suffix; [congruence | simpl in E; lia].
Qed.



End Insights.

(* ===================================================================== *)
(** ** Wellness score aggregator                                          *)
(* ===================================================================== *)

Section Wellness.
Import JS Dashboard.

(** Rounding an integer leaves it as it is. *)
Lemma Math_round_Z_id (z : Z) : Math_round_Z z = z.
Proof.
  unfold Math_round_Z, Qfloor, Qplus, inject_Z. cbn [Qnum Qden].
  symmetry. apply (Z.div_unique _ _ z 1); lia.
Qed.

Lemma getScoreLabel_cases (score : Z) :
  (75 <= score /\ getScoreLabel score = "Excellent"%string) \/
  (50 <= score < 75 /\ getScoreLabel score = "Good"%string) \/
  (25 <= score < 50 /\ getScoreLabel score = "Fair"%string) \/
  (score < 25 /\ getScoreLabel score = "Needs Attention"%string).
Proof.
  unfold getScoreLabel.
  destruct (Z.leb_spec 75 score); [left; split; [lia | reflexivity]|].
  destruct (Z.leb_spec 50 score); [right; left; split; [lia | reflexivity]|].
  destruct (Z.leb_spec 25 score); [right; right; left; split; [lia | reflexivity]|].
  right; right; right; split; [lia | reflexivity].
Qed.

(** C1: the wellness score is min(100, b1 + b2 + b3 + b4 + b5) with the five
    buckets of the specification; its label is "Excellent" iff it is at
    least 75, "Good" iff in [50, 75), "Fair" iff in [25, 50) and
    "Needs Attention" otherwise; compute(5, 10, 4, 8, 3) is 96, labelled
    "Excellent", and with a streak of 50 the total is clamped to 100. *)
Theorem C1_wellness_score :
  (forall (moodEntryCount fitnessLevel : Z)
          (avgStressTier avgSleepHours : number) (streakDays : Z),
      let b1 := if 0 <? moodEntryCount then 20 else 0 in
      let b2 := if 0 <? fitnessLevel then 25 else 0 in
      let b3 := if lt zero avgStressTier && le avgStressTier (of_Z 5) then 20
                else if lt (of_Z 5) avgStressTier then 10 else 0 in
      let b4 := if le (of_Z 7) avgSleepHours && le avgSleepHours (of_Z 9) then 25
                else if lt zero avgSleepHours then 15 else 0 in
      let b5 := 2 * streakDays in
      calculatedScore moodEntryCount fitnessLevel avgStressTier avgSleepHours
                      streakDays
      = Z.min 100 (b1 + b2 + b3 + b4 + b5)) /\
  (forall score : Z,
      (getScoreLabel score = "Excellent"%string <-> 75 <= score) /\
      (getScoreLabel score = "Good"%string <-> 50 <= score < 75) /\
      (getScoreLabel score = "Fair"%string <-> 25 <= score < 50) /\
      (getScoreLabel score = "Needs Attention"%string <-> ~ 25 <= score)) /\
  calculatedScore 5 10 (of_Z 4) (of_Z 8) 3 = 96 /\
  getScoreLabel (calculatedScore 5 10 (of_Z 4) (of_Z 8) 3) = "Excellent"%string /\
  calculatedScore 5 10 (of_Z 4) (of_Z 8) 50 = 100.
Proof.
  split.
  { intros. unfold calculatedScore. rewrite Math_round_Z_id.
    subst b1 b2 b3 b4 b5. unfold gt, ge, lt, le. f_equal.
    repeat match goal with
           | |- context [if ?c then _ else _] => destruct c
           end; lia. }
  split; [| repeat split; vm_compute; reflexivity].
  intros score.
  destruct (getScoreLabel_cases score) as [[H ->]|[[H ->]|[[H ->]|[H ->]]]];
    repeat split; intros; try lia; try discriminate; try reflexivity.
Qed.

End Wellness.

(* ===================================================================== *)
(** ** Stress classifier                                                  *)
(* ===================================================================== *)

Section Stress.
Import StressSnap.

Lemma calculateStressLevel_cases (hr : Z) :
  (hr < 60 /\ calculateStressLevel hr = 2) \/
  (60 <= hr < 70 /\ calculateStressLevel hr = 3) \/
  (70 <= hr < 80 /\ calculateStressLevel hr = 5) \/
  (80 <= hr < 90 /\ calculateStressLevel hr = 7) \/
  (90 <= hr < 100 /\ calculateStressLevel hr = 8) \/
  (100 <= hr /\ calculateStressLevel hr = 9).
Proof.
  unfold calculateStressLevel.
  repeat match goal with
         | |- context [?a <? ?b] => destruct (Z.ltb_spec a b)
         end; lia.
Qed.

(** C2: the stress tier is one of 2, 3, 5, 7, 8, 9; heart rates in [40, 59]
    give 2, [60, 69] give 3, [70, 79] give 5, [80, 89] give 7, [90, 99]
    give 8 and 100 or more give 9; each of 60, 70, 80, 90, 100 falls in the
    higher bucket; and the tier never decreases when the heart rate grows. *)
Theorem C2_stress_tiers :
  (forall hr : Z, calculateStressLevel hr ∈ [2; 3; 5; 7; 8; 9]) /\
  (forall hr : Z,
      (40 <= hr <= 59 -> calculateStressLevel hr = 2) /\
      (60 <= hr <= 69 -> calculateStressLevel hr = 3) /\
      (70 <= hr <= 79 -> calculateStressLevel hr = 5) /\
      (80 <= hr <= 89 -> calculateStressLevel hr = 7) /\
      (90 <= hr <= 99 -> calculateStressLevel hr = 8) /\
      (100 <= hr -> calculateStressLevel hr = 9)) /\
  (calculateStressLevel 60 = 3 /\ calculateStressLevel 70 = 5 /\
   calculateStressLevel 80 = 7 /\ calculateStressLevel 90 = 8 /\
   calculateStressLevel 100 = 9) /\
  (forall hr1 hr2 : Z,
      hr1 <= hr2 -> calculateStressLevel hr1 <= calculateStressLevel hr2).
Proof.
  split.
  { intros hr.
    destruct (calculateStressLevel_cases hr)
      as [[_ ->]|[[_ ->]|[[_ ->]|[[_ ->]|[[_ ->]|[_ ->]]]]]]; set_solver. }
  split.
  { intros hr. pose proof (calculateStressLevel_cases hr). lia. }
  split; [repeat split; reflexivity|].
  intros hr1 hr2 Hle.
  pose proof (calculateStressLevel_cases hr1).
  pose proof (calculateStressLevel_cases hr2). lia.
Qed.

(** One heart rate in each band, and a resting and an elevated one. *)
Lemma C2_stress_tiers_witness :
  (40 <= 50 <= 59 /\ calculateStressLevel 50 = 2) /\
  (60 <= 65 <= 69 /\ calculateStressLevel 65 = 3) /\
  (70 <= 75 <= 79 /\ calculateStressLevel 75 = 5) /\
  (80 <= 85 <= 89 /\ calculateStressLevel 85 = 7) /\
  (90 <= 95 <= 99 /\ calculateStressLevel 95 = 8) /\
  (100 <= 120 /\ calculateStressLevel 120 = 9) /\
  (65 <= 95 /\ calculateStressLevel 65 <= calculateStressLevel 95).
Proof.
  destruct C2_stress_tiers as [_ [Hband [_ Hmono]]].
  assert (H50 : 40 <= 50 <= 59) by lia.
  assert (H65 : 60 <= 65 <= 69) by lia.
  assert (H75 : 70 <= 75 <= 79) by lia.
  assert (H85 : 80 <= 85 <= 89) by lia.
  assert (H95 : 90 <= 95 <= 99) by lia.
  assert (H120 : 100 <= 120) by lia.
  assert (Hle : 65 <= 95) by lia.
  split; [split; [exact H50 | apply (Hband 50); exact H50]|].
  split; [split; [exact H65 | apply (Hband 65); exact H65]|].
  split; [split; [exact H75 | apply (Hband 75); exact H75]|].
  split; [split; [exact H85 | apply (Hband 85); exact H85]|].
  split; [split; [exact H95 | apply (Hband 95); exact H95]|].
  split; [split; [exact H120 | apply (Hband 120); exact H120]|].
  split; [exact Hle | apply Hmono; exact Hle].
Defined.

End Stress.

(* ===================================================================== *)
(** ** Sleep sessions                                                     *)
(* ===================================================================== *)

Section Sleep.
Import JS SleepPal Scenarios.




(** C4 as stated fails: for nights of 420, 480 and 450 minutes the average
    is the number 7.5, not 7.2. *)
Lemma C4_average_is_not_7_2 :
  map duration_minutes threeNights = [420; 480; 450] /\
  avgSleep threeNights = lit 75 10 /\
  avgSleep threeNights <> lit 72 10.
Proof.
  repeat split; try (vm_compute; reflexivity). vm_compute. discriminate.
Qed.

(** C4, amended: for exactly three sessions of 420, 480 and 450 minutes the
    average-hours output is 7.5, the mean duration in minutes divided
    by 60 and rounded to one decimal place. *)
Theorem C4_average_three_nights :
  forall (s1 e1 q1 s2 e2 q2 s3 e3 q3 : Z) (r1 r2 r3 : bool),
    let sessions :=
      [ Build_SleepSession s1 e1 420 q1 r1;
        Build_SleepSession s2 e2 480 q2 r2;
        Build_SleepSession s3 e3 450 q3 r3 ] in
    avgSleep sessions = lit 75 10 /\
    exists q : Q,
      to_Q (avgSleep sessions) = Some q /\
      (q == (420 + 480 + 450) / 3 / 60)%Q /\ (q == 75 / 10)%Q.
Proof.
  intros. subst sessions.
  split; [vm_compute; reflexivity|].
  eexists. split; [vm_compute; reflexivity|].
  split; vm_compute; reflexivity.
Qed.

(** C8: for the empty list of sessions the average hours and the average
    quality are both the number 0. *)
Theorem C8_empty_history :
  avgSleep [] = zero /\ avgQuality [] = zero /\ to_Q zero = Some 0%Q.
Proof. split; [reflexivity | split; reflexivity]. Qed.

End Sleep.

(* ===================================================================== *)
(** ** Progress tracker                                                   *)
(* ===================================================================== *)

Section Progress.
Import MindGym.

(** C7: completing an exercise always yields streak + 1 and
    min(100, fitness level + 1), in the component state and in the row
    stored, in both copies of the component; complete(3, 99) gives (4, 100)
    and complete(0, 0) gives (1, 1). *)
Theorem C7_progress_tracker :
  (forall (st : State) (exerciseId : string) (score : Z),
      let st' := completeExercise st exerciseId score in
      let st'' := completeExercise_view st exerciseId score in
      streak_count (progress st') = streak_count (progress st) + 1 /\
      fitness_level (progress st')
        = Z.min 100 (fitness_level (progress st) + 1) /\
      table st' = table st ++
        [ {| row_exercise_id := exerciseId;
             row_score := score;
             row_streak_count := streak_count (progress st) + 1;
             row_fitness_level := Z.min 100 (fitness_level (progress st) + 1) |} ] /\
      progress st'' = progress st' /\ table st'' = table st') /\
  (forall total_completed active rows exerciseId score,
      progress (completeExercise
                  {| progress := {| streak_count := 3; fitness_level := 99;
                                    total_completed := total_completed |};
                     activeExercise := active; table := rows |}
                  exerciseId score)
      = {| streak_count := 4; fitness_level := 100;
           total_completed := total_completed + 1 |}) /\
  (forall total_completed active rows exerciseId score,
      progress (completeExercise
                  {| progress := {| streak_count := 0; fitness_level := 0;
                                    total_completed := total_completed |};
                     activeExercise := active; table := rows |}
                  exerciseId score)
      = {| streak_count := 1; fitness_level := 1;
           total_completed := total_completed + 1 |}).
Proof.
  split; [intros; repeat split|]. split; intros; reflexivity.
Qed.

End Progress.

(* ===================================================================== *)
(** ** Recomputation of the derived signals                               *)
(* ===================================================================== *)

Section Recomputation.
Import JS Dashboard Scenarios.

(** The score computed from what was read. *)
Lemma loadDashboardData_unfold (b : Backend) :
  let d := readDashboardData b in
  let c := calculatedScore (moodCount d) (exercisesCompleted d)
                           (avgStress d) (avgSleep d) (streakDays d) in
  loadDashboardData b
  = if c =? wellnessScore d then (b, d)
    else (update_wellness_score b c, setWellnessScore d c).
Proof. reflexivity. Qed.

(** Writing the score changes what is read back in the score only. *)
Lemma readDashboardData_update (b : Backend) (v : Z) :
  readDashboardData (update_wellness_score b v)
  = setWellnessScore (readDashboardData b)
      (or_default (mjoin (profile (update_wellness_score b v))) 50).
Proof.
  unfold update_wellness_score.
  destruct b as [[p|] m g s l]; cbn [profile]; [|reflexivity].
  destruct ((0 <=? v) && (v <=? 100)); reflexivity.
Qed.

Lemma update_wellness_score_twice (b : Backend) (v : Z) :
  update_wellness_score (update_wellness_score b v) v
  = update_wellness_score b v.
Proof.
  unfold update_wellness_score.
  destruct b as [[p|] m g s l]; cbn [profile]; [|reflexivity].
  destruct ((0 <=? v) && (v <=? 100)) eqn:E; cbn [profile]; rewrite ?E;
    reflexivity.
Qed.

(** An update either changes nothing or stores its in-range argument. *)
Lemma update_wellness_score_cases (b : Backend) (v : Z) :
  update_wellness_score b v = b \/
  (profile (update_wellness_score b v) = Some (Some v) /\ 0 <= v <= 100).
Proof.
  unfold update_wellness_score.
  destruct (profile b); [|left; reflexivity].
  destruct (Z.leb_spec 0 v), (Z.leb_spec v 100); cbn [andb];
    solve [left; reflexivity | right; split; [reflexivity | lia]].
Qed.

(** Loading the dashboard a second time changes nothing. *)
Lemma loadDashboardData_idempotent (b : Backend) :
  loadDashboardData (fst (loadDashboardData b)) = loadDashboardData b.
Proof.
  rewrite (loadDashboardData_unfold b). cbv zeta.
  set (d := readDashboardData b).
  set (c := calculatedScore _ _ _ _ _).
  destruct (Z.eqb_spec c (wellnessScore d)) as [E|E]; cbn [fst].
  { rewrite loadDashboardData_unfold. cbv zeta. fold d. fold c.
    rewrite (proj2 (Z.eqb_eq _ _) E). reflexivity. }
  rewrite loadDashboardData_unfold. cbv zeta.
  rewrite readDashboardData_update. fold d.
  cbn [setWellnessScore moodCount exercisesCompleted avgStress avgSleep
       streakDays wellnessScore]. fold c.
  rewrite update_wellness_score_twice.
  destruct (update_wellness_score_cases b c) as [Hsame | [Hprof Hrange]].
  - rewrite Hsame.
    change (or_default (mjoin (profile b)) 50) with (wellnessScore d).
    rewrite (proj2 (Z.eqb_neq _ _) E). reflexivity.
  - rewrite Hprof. clearbody c d. cbn [mjoin option_join or_default].
    destruct (Z.eqb_spec c 0) as [Z0|Z0].
    + rewrite Z0. reflexivity.
    + rewrite Z.eqb_refl. reflexivity.
Qed.

(** C9: the sentiment scorer, the stress classifier and the wellness-score
    computation return identical outputs on identical inputs, and loading
    the dashboard twice over unchanged tables computes the same score, leaves
    the backend as the first load left it and shows the same data. *)
Theorem C9_recomputation :
  (forall text1 text2 : string,
      text1 = text2 ->
      MoodJournal.analyzeSentiment text1 = MoodJournal.analyzeSentiment text2) /\
  (forall hr1 hr2 : Z,
      hr1 = hr2 ->
      StressSnap.calculateStressLevel hr1 = StressSnap.calculateStressLevel hr2) /\
  (forall (m1 m2 f1 f2 : Z) (st1 st2 sl1 sl2 : number) (k1 k2 : Z),
      m1 = m2 -> f1 = f2 -> st1 = st2 -> sl1 = sl2 -> k1 = k2 ->
      calculatedScore m1 f1 st1 sl1 k1 = calculatedScore m2 f2 st2 sl2 k2) /\
  (forall b : Backend,
      let first := loadDashboardData b in
      let second := loadDashboardData (fst first) in
      wellnessScore (snd second) = wellnessScore (snd first) /\
      fst second = fst first /\
      snd second = snd first).
Proof.
  split; [intros ? ? ->; reflexivity|].
  split; [intros ? ? ->; reflexivity|].
  split; [intros; subst; reflexivity|].
  intros b first second. subst first second.
  rewrite loadDashboardData_idempotent. repeat split.
Qed.

(** The same text, the same heart rate and the same aggregates evaluated
    twice, and two loads of the dashboard of an active user. *)
Lemma C9_recomputation_witness :
  "I am happy"%string = "I am happy"%string /\
  65 = 65 /\ of_Z 4 = of_Z 4 /\
  MoodJournal.analyzeSentiment "I am happy"
  = MoodJournal.analyzeSentiment "I am happy" /\
  StressSnap.calculateStressLevel 65 = StressSnap.calculateStressLevel 65 /\
  calculatedScore 5 10 (of_Z 4) (of_Z 8) 3
  = calculatedScore 5 10 (of_Z 4) (of_Z 8) 3 /\
  fst (loadDashboardData (fst (loadDashboardData activeUser)))
  = fst (loadDashboardData activeUser) /\
  wellnessScore (snd (loadDashboardData (fst (loadDashboardData activeUser))))
  = wellnessScore (snd (loadDashboardData activeUser)) /\
  wellnessScore (snd (loadDashboardData activeUser)) = 98.
Proof.
  destruct C9_recomputation as [Htext [Hstress [Hscore Hload]]].
  assert (Ht : "I am happy"%string = "I am happy"%string) by reflexivity.
  assert (Hh : 65 = 65) by reflexivity.
  assert (Hn : of_Z 4 = of_Z 4) by reflexivity.
  repeat (split; [assumption|]).
  split; [apply Htext; exact Ht|].
  split; [apply Hstress; exact Hh|].
  split; [apply Hscore; reflexivity|].
  destruct (Hload activeUser) as [Hs [Hb _]].
  split; [exact Hb|]. split; [exact Hs|]. vm_compute. reflexivity.
Defined.

End Recomputation.

(* ===================================================================== *)
(** ** Sums of integers are exact in binary64                             *)
(* ===================================================================== *)

Section ExactSums.
Import JS.

(** The iteration of the rounding functions, by unary counting. *)
Lemma iter_pos_nat {A} (f : A -> A) (n : positive) (x : A) :
  SpecFloat.iter_pos f n x = Nat.iter (Pos.to_nat n) f x.
Proof.
  revert x. induction n as [n IH|n IH|]; intros x; cbn [SpecFloat.iter_pos].
  - rewrite !IH, Pos2Nat.inj_xI.
    replace (S (2 * Pos.to_nat n)) with (Pos.to_nat n + (Pos.to_nat n + 1))%nat by lia.
    rewrite !Nat.iter_add. reflexivity.
  - rewrite !IH, Pos2Nat.inj_xO.
    replace (2 * Pos.to_nat n)%nat with (Pos.to_nat n + Pos.to_nat n)%nat by lia.
    rewrite Nat.iter_add. reflexivity.
  - reflexivity.
Qed.

Lemma shiftn_add (j k : nat) (q : positive) :
  shiftn (j + k) q = shiftn j (shiftn k q).
Proof. unfold shiftn. apply Nat.iter_add. Qed.

Lemma shiftn_digits (j : nat) (q : positive) :
  Zpos (digits2_pos (shiftn j q)) = Zpos (digits2_pos q) + Z.of_nat j.
Proof.
  induction j as [|j IH]; [cbn; lia|].
  change (shiftn (S j) q) with (xO (shiftn j q)). cbn [digits2_pos].
  rewrite Pos2Z.inj_succ, IH. lia.
Qed.

Lemma shiftn_value (j : nat) (q : positive) :
  Zpos (shiftn j q) = Zpos q * 2 ^ Z.of_nat j.
Proof.
  induction j as [|j IH]; [cbn; lia|].
  change (shiftn (S j) q) with (xO (shiftn j q)).
  rewrite Pos2Z.inj_xO, IH, Nat2Z.inj_succ, Z.pow_succ_r by lia. ring.
Qed.

Lemma shiftn_plus (j : nat) (a b : positive) :
  (shiftn j a + shiftn j b)%positive = shiftn j (a + b).
Proof.
  apply Pos2Z.inj. rewrite Pos2Z.inj_add, !shiftn_value, Pos2Z.inj_add. ring.
Qed.

Lemma pos_iter_shiftn (t : positive) (q : positive) :
  Pos.iter xO q t = shiftn (Pos.to_nat t) q.
Proof. unfold shiftn. apply Pos2Nat.inj_iter. Qed.

Lemma shr_1_shiftn (j : nat) (q : positive) :
  Nat.iter j shr_1 (Build_shr_record (Zpos (shiftn j q)) false false)
  = Build_shr_record (Zpos q) false false.
Proof.
  induction j as [|j IH]; [reflexivity|].
  rewrite Nat.iter_succ_r.
  change (shiftn (S j) q) with (xO (shiftn j q)). cbn [shr_1 orb]. exact IH.
Qed.

(** Rounding a mantissa that already has 53 digits at its own exponent
    returns it. *)
Lemma binary_round_aux_canonical (m : positive) (e : Z) :
  Zpos (digits2_pos m) = 53 -> -1074 <= e <= 971 ->
  binary_round_aux prec emax false (Zpos m) e loc_Exact = S754_finite false m e.
Proof.
  intros Hd He. unfold binary_round_aux, shr_fexp, fexp, emin, prec, emax.
  cbn [Zdigits2 shr_record_of_loc]. rewrite Hd.
  replace (Z.max (53 + e - 53) (3 - 1024 - 53) - e) with 0 by lia.
  cbn [shr shr_m loc_of_shr_record round_nearest_even Zdigits2].
  rewrite Hd.
  replace (Z.max (53 + e - 53) (3 - 1024 - 53) - e) with 0 by lia.
  cbn [shr shr_m].
  destruct (Z.leb_spec e (1024 - 53)) as [_|H]; [reflexivity | lia].
Qed.

(** Rounding the integer [p], written with [k] extra binary zeros at
    exponent [-k], gives the normalised [p]: nothing is lost. *)
Lemma binary_round_shifted (p : positive) (k : nat) :
  Zpos (digits2_pos p) <= 53 ->
  binary_round prec emax false (shiftn k p) (- Z.of_nat k) = canon p.
Proof.
  intros Hd. set (d := Zpos (digits2_pos p)) in *.
  assert (Hd1 : 1 <= d) by (unfold d; lia).
  unfold binary_round. rewrite shiftn_digits. fold d.
  unfold fexp at 1, emin, prec, emax.
  replace (Z.max (d + Z.of_nat k + - Z.of_nat k - 53) (3 - 1024 - 53))
    with (d - 53) by lia.
  unfold shl_align, canon. fold d.
  destruct (d - 53 - - Z.of_nat k) as [|t|t] eqn:Et.
  - replace k with (Z.to_nat (53 - d)) by lia.
    replace (- Z.of_nat (Z.to_nat (53 - d))) with (d - 53) by lia.
    apply binary_round_aux_canonical; [|lia].
    rewrite shiftn_digits. fold d. lia.
  - (* more zeros than needed: the rounding shifts them out *)
    unfold binary_round_aux, shr_fexp, fexp, emin, prec, emax.
    cbn [Zdigits2 shr_record_of_loc]. rewrite shiftn_digits. fold d.
    replace (Z.max (d + Z.of_nat k + - Z.of_nat k - 53) (3 - 1024 - 53)
             - - Z.of_nat k) with (Zpos t) by lia.
    cbn [shr]. rewrite iter_pos_nat.
    replace k with (Pos.to_nat t + Z.to_nat (53 - d))%nat by lia.
    rewrite shiftn_add, shr_1_shiftn.
    cbn [shr_m loc_of_shr_record round_nearest_even Zdigits2].
    rewrite shiftn_digits. fold d.
    replace (Z.max (d + Z.of_nat (Z.to_nat (53 - d))
                    + (- Z.of_nat (Pos.to_nat t + Z.to_nat (53 - d)) + Zpos t) - 53)
                   (3 - 1024 - 53)
             - (- Z.of_nat (Pos.to_nat t + Z.to_nat (53 - d)) + Zpos t))
      with 0 by lia.
    cbn [shr shr_m].
    replace (- Z.of_nat (Pos.to_nat t + Z.to_nat (53 - d)) + Zpos t)
      with (d - 53) by lia.
    destruct (Z.leb_spec (d - 53) (1024 - 53)) as [_|H]; [reflexivity | lia].
  - rewrite pos_iter_shiftn, <- shiftn_add.
    replace (Pos.to_nat t + k)%nat with (Z.to_nat (53 - d)) by lia.
    apply binary_round_aux_canonical; [|lia].
    rewrite shiftn_digits. fold d. lia.
Qed.

(** A positive integer below 2^53 is the number [canon] of it. *)
Lemma of_Z_canon (p : positive) :
  Zpos p < 2 ^ 53 -> of_Z (Zpos p) = canon p /\ Zpos (digits2_pos p) <= 53.
Proof.
  intros Hp.
  assert (Hd : Zpos (digits2_pos p) <= 53).
  { pose proof (digits2_pos_bounds p) as [Hlo _].
    destruct (Z.le_gt_cases (Zpos (digits2_pos p)) 53) as [H|H]; [exact H|].
    exfalso. assert (2 ^ 53 <= 2 ^ (Zpos (digits2_pos p) - 1))
      by (apply Z.pow_le_mono_r; lia). lia. }
  split; [|exact Hd].
  unfold of_Z, binary_normalize. apply (binary_round_shifted p 0 Hd).
Qed.

(** Aligning a normalised integer to a smaller exponent [- K] writes it
    with [K] extra zeros. *)
Lemma shl_align_canon (p : positive) (K : nat) :
  Zpos (digits2_pos p) <= 53 ->
  53 - Zpos (digits2_pos p) <= Z.of_nat K ->
  fst (shl_align (shiftn (Z.to_nat (53 - Zpos (digits2_pos p))) p)
                 (Zpos (digits2_pos p) - 53) (- Z.of_nat K))
  = shiftn K p.
Proof.
  intros Hd HK. set (d := Zpos (digits2_pos p)) in *.
  unfold shl_align.
  destruct (- Z.of_nat K - (d - 53)) as [|t|t] eqn:Et; cbn [fst].
  - f_equal. lia.
  - lia.
  - rewrite pos_iter_shiftn, <- shiftn_add. f_equal. lia.
Qed.

(** Adding two non-negative integers whose sum is below 2^53 is exact. *)
Lemma add_of_Z (a b : Z) :
  0 <= a -> 0 <= b -> a + b < 2 ^ 53 ->
  add (of_Z a) (of_Z b) = of_Z (a + b).
Proof.
  intros Ha Hb Hab.
  destruct a as [|a|a]; [|clear Ha|lia].
  { rewrite Z.add_0_l. destruct b as [|b|b]; [reflexivity| |lia].
    rewrite Z.add_0_l in Hab.
    destruct (of_Z_canon b Hab) as [-> _]. reflexivity. }
  destruct b as [|b|b]; [|clear Hb|lia].
  { rewrite Z.add_0_r.
    destruct (of_Z_canon a ltac:(lia)) as [-> _]. reflexivity. }
  destruct (of_Z_canon a ltac:(lia)) as [-> Hda].
  destruct (of_Z_canon b ltac:(lia)) as [-> Hdb].
  change (Zpos a + Zpos b) with (Zpos (a + b)) in *.
  destruct (of_Z_canon (a + b) Hab) as [-> Hdab].
  unfold canon at 1 2. unfold add, SFadd.
  set (da := Zpos (digits2_pos a)) in *. set (db := Zpos (digits2_pos b)) in *.
  set (K := Z.to_nat (- Z.min (da - 53) (db - 53))).
  assert (HK : Z.min (da - 53) (db - 53) = - Z.of_nat K) by (unfold K; lia).
  rewrite HK.
  unfold da, db. rewrite !shl_align_canon by (fold da db; lia).
  cbn [cond_Zopp]. change (Zpos (shiftn K a) + Zpos (shiftn K b))
    with (Zpos (shiftn K a + shiftn K b)).
  rewrite shiftn_plus. cbn [binary_normalize].
  apply binary_round_shifted. exact Hdab.
Qed.

Lemma sumZ_cons (z : Z) (l : list Z) : sumZ (z :: l) = z + sumZ l.
Proof. reflexivity. Qed.

Lemma sumZ_nonneg (l : list Z) : Forall (fun z => 0 <= z) l -> 0 <= sumZ l.
Proof.
  induction 1 as [|z l Hz Hl IH]; [reflexivity|]. rewrite sumZ_cons. lia.
Qed.

(** So is the sum [reduce] computes over non-negative integers. *)
Lemma fold_add_of_Z (l : list Z) (acc : Z) :
  0 <= acc -> Forall (fun z => 0 <= z) l -> acc + sumZ l < 2 ^ 53 ->
  fold_left (fun acc r => add acc (of_Z r)) l (of_Z acc)
  = of_Z (acc + sumZ l).
Proof.
  revert acc. induction l as [|z l IH]; intros acc Hacc Hl Hsum.
  - cbn [fold_left]. f_equal. change (sumZ []) with 0. lia.
  - apply Forall_cons in Hl. destruct Hl as [Hz Hl].
    pose proof (sumZ_nonneg l Hl) as Hrest.
    rewrite sumZ_cons in *. cbn [fold_left].
    rewrite add_of_Z by lia. rewrite IH by (try assumption; lia).
    f_equal. lia.
Qed.

Lemma reduce_map {A} (f : A -> Z) (l : list A) (x : number) :
  fold_left (fun acc r => add acc (of_Z (f r))) l x
  = fold_left (fun acc z => add acc (of_Z z)) (map f l) x.
Proof.
  revert x. induction l as [|r l IH]; intros x; cbn [fold_left map];
    [reflexivity | apply IH].
Qed.

(** The sum [reduce] computes over a non-negative integer field of the
    rows is the exact sum. *)
Lemma reduce_exact {A} (f : A -> Z) (l : list A) :
  Forall (fun r => 0 <= f r) l -> sumZ (map f l) < 2 ^ 53 ->
  fold_left (fun acc r => add acc (of_Z (f r))) l zero = of_Z (sumZ (map f l)).
Proof.
  intros Hl Hsum. rewrite reduce_map. change zero with (of_Z 0).
  rewrite fold_add_of_Z; [f_equal; lia | lia | | lia].
  apply Forall_map. exact Hl.
Qed.

Lemma sumZ_bounds {A} (f : A -> Z) (lo hi : Z) (l : list A) :
  Forall (fun r => lo <= f r <= hi) l ->
  lo * Z.of_nat (length l) <= sumZ (map f l) <= hi * Z.of_nat (length l).
Proof.
  induction 1 as [|r l Hr Hl IH]; [cbn; lia|].
  cbn [map length]. rewrite sumZ_cons, Nat2Z.inj_succ. lia.
Qed.

Lemma zrange_In (a b z : Z) : a <= z <= b -> In z (zrange a b).
Proof.
  intros H. unfold zrange. apply in_map_iff.
  exists (Z.to_nat (z - a)). split; [lia|]. apply in_seq. lia.
Qed.

(** The integer nearest to s / n, ties upwards. *)
Lemma nearest_bounds (n s : Z) :
  0 < n ->
  2 * n * ((2 * s + n) / (2 * n)) <= 2 * s + n
  < 2 * n * ((2 * s + n) / (2 * n) + 1).
Proof.
  intros Hn. split.
  - apply Z.mul_div_le. lia.
  - pose proof (Z.mul_succ_div_gt (2 * s + n) (2 * n) ltac:(lia)). lia.
Qed.

End ExactSums.

(* ===================================================================== *)
(** ** Draws of [Math.random] scaled and floored                          *)
(* ===================================================================== *)

Section RandomDraws.
Import JS.

(** Shifting out [j] binary digits of [N]: what is kept and what the two
    rounding bits say of the part dropped. *)
Lemma shr_1_steps (N : Z) (j : nat) :
  0 <= N ->
  let mrs := Nat.iter j shr_1 (Build_shr_record N false false) in
  0 <= shr_m mrs /\
  exists R : Z,
    N = shr_m mrs * 2 ^ Z.of_nat j + R /\
    match shr_r mrs, shr_s mrs with
    | false, false => R = 0
    | false, true => 0 < R /\ 2 * R < 2 ^ Z.of_nat j
    | true, false => 2 * R = 2 ^ Z.of_nat j
    | true, true => 2 ^ Z.of_nat j < 2 * R /\ R < 2 ^ Z.of_nat j
    end.
Proof.
  intros HN. induction j as [|j IH].
  { cbn. split; [exact HN|]. exists 0. split; [lia | reflexivity]. }
  cbn zeta in *. rewrite Nat.iter_succ.
  destruct (Nat.iter j shr_1 (Build_shr_record N false false)) as [m r s].
  cbn [shr_m shr_r shr_s] in IH. destruct IH as [Hm [R [HR Hloc]]].
  rewrite Nat2Z.inj_succ, Z.pow_succ_r by lia.
  assert (HP : 0 < 2 ^ Z.of_nat j) by (apply Z.pow_pos_nonneg; lia).
  set (P := 2 ^ Z.of_nat j) in *. clearbody P.
  destruct m as [|[p|p|]|p]; [| | | |lia];
    destruct r, s; cbn [shr_1 orb shr_m shr_r shr_s];
    (split; [lia|]);
    first [ exists R; split; [lia|lia] | exists (P + R); split; [lia|lia]
          | exists R; split; [lia|]; lia ].
Qed.

(** Rounding to nearest after the shift: at most half a unit is added. *)
Lemma round_after_shift (N : Z) (j : nat) :
  0 <= N ->
  let mrs := Nat.iter j shr_1 (Build_shr_record N false false) in
  let mr := round_nearest_even (shr_m mrs) (loc_of_shr_record mrs) in
  0 <= mr /\ 2 * (mr * 2 ^ Z.of_nat j) <= 2 * N + 2 ^ Z.of_nat j.
Proof.
  intros HN mrs mr. subst mr.
  destruct (shr_1_steps N j HN) as [Hm [R [HR Hloc]]]. fold mrs in Hm, HR, Hloc.
  assert (HP : 0 < 2 ^ Z.of_nat j) by (apply Z.pow_pos_nonneg; lia).
  set (P := 2 ^ Z.of_nat j) in *. clearbody P.
  destruct mrs as [m r s]. cbn [shr_m shr_r shr_s] in *.
  destruct r, s; cbn [loc_of_shr_record round_nearest_even];
    try destruct (Z.even m); split; nia.
Qed.

Lemma shr_nat (mrs : shr_record) (e sh : Z) :
  exists j : nat,
    shr mrs e sh = (Nat.iter j shr_1 mrs, e + Z.of_nat j) /\
    Z.of_nat j = Z.max 0 sh.
Proof.
  destruct sh as [|p|p]; cbn [shr].
  - exists 0%nat. split; [f_equal; cbn; lia | reflexivity].
  - exists (Pos.to_nat p). rewrite iter_pos_nat. split; [f_equal; lia | lia].
  - exists 0%nat. split; [f_equal; cbn; lia | lia].
Qed.

(** The number [binary_round_aux] makes of the positive integer [M] at
    exponent [e]: its mantissa and exponent, and the bound that rounding
    to nearest gives. *)
Lemma binary_round_aux_bound (M : positive) (e : Z) :
  exists (j j2 : nat) (mf : Z),
    binary_round_aux prec emax false (Zpos M) e loc_Exact
    = match mf with
      | Z0 => S754_zero false
      | Zpos m =>
          if e + Z.of_nat j + Z.of_nat j2 <=? emax - prec
          then S754_finite false m (e + Z.of_nat j + Z.of_nat j2)
          else S754_infinity false
      | Zneg _ => S754_nan
      end /\
    0 <= mf /\
    2 * (mf * 2 ^ Z.of_nat (j + j2)) <= 2 * Zpos M + 2 ^ Z.of_nat j /\
    Z.of_nat j = Z.max 0 (fexp prec emax (Zpos (digits2_pos M) + e) - e).
Proof.
  unfold binary_round_aux, shr_fexp. cbn [shr_record_of_loc Zdigits2].
  destruct (shr_nat (Build_shr_record (Zpos M) false false) e
              (fexp prec emax (Zpos (digits2_pos M) + e) - e)) as [j [-> Hj]].
  pose proof (round_after_shift (Zpos M) j ltac:(lia)) as Hround.
  cbv zeta in Hround.
  set (mr := round_nearest_even _ _) in *. destruct Hround as [Hmr Hbound].
  destruct (shr_nat (Build_shr_record mr false false) (e + Z.of_nat j)
              (fexp prec emax (Zdigits2 mr + (e + Z.of_nat j))
               - (e + Z.of_nat j))) as [j2 [-> _]].
  destruct (shr_1_steps mr j2 Hmr) as [Hmf [R [HR Hloc]]].
  set (mrs := Nat.iter j2 shr_1 _) in *.
  exists j, j2, (shr_m mrs). split; [reflexivity|]. split; [exact Hmf|].
  split; [|exact Hj].
  assert (HR0 : 0 <= R).
  { assert (0 < 2 ^ Z.of_nat j2) by (apply Z.pow_pos_nonneg; lia).
    destruct (shr_r mrs), (shr_s mrs); lia. }
  rewrite Nat2Z.inj_add, Z.pow_add_r by lia.
  assert (0 < 2 ^ Z.of_nat j) by (apply Z.pow_pos_nonneg; lia).
  nia.
Qed.


Lemma bounded_exponent (m : positive) (e : Z) :
  bounded prec emax m e = true -> -1074 <= e.
Proof.
  unfold bounded, canonical_mantissa, fexp, emin, prec, emax.
  intros H. apply andb_prop in H. destruct H as [H _].
  apply Z.eqb_eq in H. lia.
Qed.

(** A draw that is not zero: its exponent is at most -53 and its mantissa
    is below 2^(-e), that is, the draw is below 1. *)
Lemma draw_bounds (m : positive) (e : Z) :
  is_draw (S754_finite false m e) = true ->
  -1074 <= e <= -53 /\ Zpos m + 1 <= 2 ^ (- e) /\ Zpos m < 2 ^ 53.
Proof.
  unfold is_draw. intros H.
  apply andb_prop in H as [H _]. apply andb_prop in H as [Hv Hlt].
  unfold valid in Hv. cbn [valid_binary] in Hv.
  pose proof (bounded_exponent m e Hv) as He.
  destruct (bounded_digits m e Hv) as [Hd Hd'].
  pose proof (digits2_pos_bounds m) as [Hlo Hhi].
  assert (He53 : e <= -53).
  { change (of_Z 1) with (S754_finite false 4503599627370496 (-52)) in Hlt.
    unfold lt, SFltb, SFcompare in Hlt.
    destruct (Z.compare_spec e (-52)) as [E|E|E]; [|lia|discriminate Hlt].
    exfalso. destruct Hd' as [Hd'|Hd']; [|lia].
    destruct (Pos.compare_cont Eq m 4503599627370496) eqn:C; [discriminate Hlt| |discriminate Hlt].
    assert (C' : (m < 4503599627370496)%positive) by exact C.
    clear C. rename C' into C.
    apply Pos2Z.pos_lt_pos in C.
    rewrite Hd' in Hlo.
    lia. }
  split; [lia|].
  assert (2 ^ Zpos (digits2_pos m) <= 2 ^ (- e)) by (apply Z.pow_le_mono_r; lia).
  assert (2 ^ Zpos (digits2_pos m) <= 2 ^ 53) by (apply Z.pow_le_mono_r; lia).
  lia.
Qed.


(** The floor of a draw scaled by a positive integer below 2^53 is one of
    0, ..., p - 1: the rounding of the product never reaches p. *)
Lemma floor_scaled_draw (rnd : number) (p : positive) :
  is_draw rnd = true -> Zpos p < 2 ^ 53 ->
  exists k : Z, 0 <= k < Zpos p /\
                Math_floor (mul rnd (of_Z (Zpos p))) = of_Z k.
Proof.
  intros Hdraw Hp. destruct (of_Z_canon p Hp) as [Hcanon Hd].
  rewrite Hcanon. unfold canon.
  set (d := Zpos (digits2_pos p)) in *.
  assert (Hd1 : 1 <= d) by (unfold d; lia).
  set (mn := shiftn (Z.to_nat (53 - d)) p).
  assert (Hmn : Zpos mn = Zpos p * 2 ^ (53 - d)).
  { unfold mn. rewrite shiftn_value. f_equal; f_equal; lia. }
  assert (Hmn52 : 4503599627370496 <= Zpos mn).
  { pose proof (digits2_pos_bounds mn) as [Hlo _].
    unfold mn in Hlo at 1. rewrite shiftn_digits in Hlo. fold d in Hlo.
    replace (d + Z.of_nat (Z.to_nat (53 - d)) - 1) with 52 in Hlo by lia.
    exact Hlo. }
  pose proof Hdraw as Hshape. unfold is_draw in Hshape.
  apply andb_prop in Hshape as [_ Hshape].
  destruct rnd as [[|]|[|]| |[|] m e]; try discriminate Hshape. clear Hshape.
  { exists 0. split; [lia | reflexivity]. }
  destruct (draw_bounds m e Hdraw) as [He [Hm Hm53]].
  change (2 ^ 53) with 9007199254740992 in Hm53.
  unfold mul, SFmul. cbn [xorb].
  destruct (binary_round_aux_bound (m * mn) (e + (d - 53)))
    as [j [j2 [mf [-> [Hmf [Hbound Hj]]]]]].
  rewrite Pos2Z.inj_mul in Hbound.
  set (E := 53 - d - e).
  assert (HE : 53 <= E) by (unfold E; lia).
  set (X := 2 ^ (- e)) in *.
  assert (HX : 0 < X) by (apply Z.pow_pos_nonneg; lia).
  set (J := 2 ^ Z.of_nat j) in *.
  assert (HJ : 0 < J) by (apply Z.pow_pos_nonneg; lia).
  set (T := 2 ^ Z.of_nat (j + j2)) in *.
  assert (HT : 0 < T) by (apply Z.pow_pos_nonneg; lia).
  assert (H2E : 0 < 2 ^ E) by (apply Z.pow_pos_nonneg; lia).
  (* the shift is short of the digits of the scale *)
  assert (Hshift : J < 2 * Zpos mn).
  { pose proof (digits2_pos_bounds (m * mn)) as [HMlo _].
    set (dM := Zpos (digits2_pos (m * mn))) in *.
    unfold fexp, emin, prec, emax in Hj.
    destruct (Z.le_gt_cases (Z.of_nat j) 52) as [Hle|Hgt].
    - assert (J <= 2 ^ 52) by (apply Z.pow_le_mono_r; lia).
      change (2 ^ 52) with 4503599627370496 in *. lia.
    - assert (Hjd : Z.of_nat j = dM - 53) by lia.
      replace (dM - 1) with (Z.of_nat j + 52) in HMlo by lia.
      rewrite Z.pow_add_r in HMlo by lia. fold J in HMlo.
      rewrite Pos2Z.inj_mul in HMlo.
      change (2 ^ 52) with 4503599627370496 in HMlo.
      assert (Zpos m * Zpos mn < 9007199254740992 * Zpos mn)
        by (apply Z.mul_lt_mono_pos_r; lia).
      lia. }
  (* the value stays below p *)
  assert (Hvalue : mf * T < Zpos p * 2 ^ E).
  { assert (HpE : Zpos p * 2 ^ E = Zpos mn * X).
    { rewrite Hmn, <- Z.mul_assoc. unfold X. rewrite <- Z.pow_add_r by lia.
      f_equal; f_equal; unfold E; lia. }
    rewrite HpE.
    assert (Zpos mn * (Zpos m + 1) <= Zpos mn * X)
      by (apply Z.mul_le_mono_nonneg_l; lia).
    lia. }
  destruct mf as [|mfp|mfp]; [| |lia].
  { exists 0. split; [lia | reflexivity]. }
  set (e2 := e + (d - 53) + Z.of_nat j + Z.of_nat j2).
  assert (He2 : e2 = Z.of_nat (j + j2) - E) by (unfold e2, E; lia).
  assert (He2lt : e2 < 53).
  { assert (Hlt : T < 2 ^ (53 + E)).
    { rewrite Z.pow_add_r by lia.
      change (2 ^ 53) with 9007199254740992.
      assert (1 * T <= Zpos mfp * T)
        by (apply Z.mul_le_mono_nonneg_r; lia).
      assert (Zpos p * 2 ^ E < 9007199254740992 * 2 ^ E)
        by (apply Z.mul_lt_mono_pos_r; lia).
      lia. }
    unfold T in Hlt. apply Z.pow_lt_mono_r_iff in Hlt; lia. }
  destruct (Z.leb_spec e2 (emax - prec)) as [_|Hover];
    [|unfold emax, prec in Hover; lia].
  cbn [Math_floor cond_Zopp].
  exists (Z.shiftl (Zpos mfp) e2). split; [|reflexivity].
  split; [apply Z.shiftl_nonneg; lia|].
  destruct (Z.le_gt_cases 0 e2) as [Hpos|Hneg].
  - rewrite Z.shiftl_mul_pow2 by lia.
    assert (HTE : T = 2 ^ e2 * 2 ^ E).
    { unfold T. rewrite <- Z.pow_add_r by lia. f_equal. lia. }
    rewrite HTE, Z.mul_assoc in Hvalue.
    apply Z.mul_lt_mono_pos_r in Hvalue; [exact Hvalue | exact H2E].
  - rewrite Z.shiftl_div_pow2 by lia.
    assert (Hq : 0 < 2 ^ (- e2)) by (apply Z.pow_pos_nonneg; lia).
    assert (HEQ : 2 ^ E = 2 ^ (- e2) * T).
    { unfold T. rewrite <- Z.pow_add_r by lia. f_equal. lia. }
    pose proof (Z.mul_div_le (Zpos mfp) (2 ^ (- e2)) Hq) as Hdiv.
    set (k := Zpos mfp / 2 ^ (- e2)) in *.
    set (Q := 2 ^ (- e2)) in *.
    assert (Hk : k * (Q * T) < Zpos p * (Q * T)).
    { rewrite <- HEQ.
      assert (Q * k * T <= Zpos mfp * T)
        by (apply Z.mul_le_mono_nonneg_r; lia).
      lia. }
    apply Z.mul_lt_mono_pos_r in Hk; [exact Hk | lia].
Qed.

(** The number of an integer from 0 to 2^53 - 1 is that integer. *)
Lemma to_integer_of_Z (k : Z) :
  0 <= k < 2 ^ 53 -> to_integer (of_Z k) = Some k.
Proof.
  intros Hk. destruct k as [|p|p]; [reflexivity| |lia].
  destruct (of_Z_canon p ltac:(lia)) as [-> Hd]. unfold canon.
  set (d := Zpos (digits2_pos p)) in *.
  assert (Hd1 : 1 <= d) by (unfold d; lia).
  cbn [to_integer cond_Zopp]. rewrite shiftn_value.
  replace (Z.of_nat (Z.to_nat (53 - d))) with (53 - d) by lia.
  destruct (Z.leb_spec 0 (d - 53)) as [H|H].
  - replace (53 - d) with 0 by lia. replace (d - 53) with 0 by lia.
    f_equal. cbn. lia.
  - replace (- (d - 53)) with (53 - d) by lia.
    assert (HP : 0 < 2 ^ (53 - d)) by (apply Z.pow_pos_nonneg; lia).
    rewrite Z.mod_mul by lia. cbn [Z.eqb].
    rewrite Z.div_mul by lia. reflexivity.
Qed.

(** The element a draw picks of an array that is not empty. *)
Lemma element_random {A} (a : list A) (rnd : number) :
  is_draw rnd = true -> a <> [] -> Z.of_nat (length a) < 2 ^ 53 ->
  exists (i : nat) (x : A),
    (i < length a)%nat /\ a !! i = Some x /\
    Math_floor (mul rnd (of_Z (Z.of_nat (length a)))) = of_Z (Z.of_nat i) /\
    element a (Math_floor (mul rnd (of_Z (Z.of_nat (length a))))) = Some x.
Proof.
  intros Hdraw Hne Hlen.
  assert (Hpos : 0 < Z.of_nat (length a)) by (destruct a; [congruence | cbn; lia]).
  destruct (Z.of_nat (length a)) as [|p|p] eqn:Ep; try lia.
  destruct (floor_scaled_draw rnd p Hdraw Hlen) as [k [Hk Hfloor]].
  assert (Hi : (Z.to_nat k < length a)%nat) by lia.
  destruct (lookup_lt_is_Some_2 a (Z.to_nat k) Hi) as [x Hx].
  exists (Z.to_nat k), x. split; [exact Hi|]. split; [exact Hx|].
  rewrite Hfloor. replace (Z.of_nat (Z.to_nat k)) with k by lia.
  split; [reflexivity|].
  unfold element. rewrite to_integer_of_Z by lia. rewrite Ep.
  destruct (Z.leb_spec 0 k); [|lia]. destruct (Z.ltb_spec k (Zpos p)); [|lia].
  exact Hx.
Qed.

End RandomDraws.

(* ===================================================================== *)
(** ** Stress readings: recording, display and average                    *)
(* ===================================================================== *)

Section StressReadings.
Import JS.


(** X5: The label of a heart rate: "Low" below 70, "Moderate" from 70 to 79,
    "High" from 80; and for every level, whatever it is, the colour and the
    label change together. *)
Theorem stress_display_bands :
  (forall hr : Z,
      let label := StressSnap.getStressLabel
                     (of_Z (StressSnap.calculateStressLevel hr)) in
      (label = "Low"%string <-> hr < 70) /\
      (label = "Moderate"%string <-> 70 <= hr < 80) /\
      (label = "High"%string <-> 80 <= hr)) /\
  (forall level : number,
      (StressSnap.getStressColor level = "from-green-400 to-emerald-400"%string
       <-> StressSnap.getStressLabel level = "Low"%string) /\
      (StressSnap.getStressColor level = "from-yellow-400 to-orange-400"%string
       <-> StressSnap.getStressLabel level = "Moderate"%string) /\
      (StressSnap.getStressColor level = "from-red-400 to-pink-400"%string
       <-> StressSnap.getStressLabel level = "High"%string)).
Proof.
  split.
  - intros hr label. subst label.
    destruct (calculateStressLevel_cases hr)
      as [[H ->]|[[H ->]|[[H ->]|[[H ->]|[[H ->]|[H ->]]]]]];
      (split; [|split]);
      (split; intros E; first [ discriminate E | reflexivity | lia ]).
  - intros level. unfold StressSnap.getStressColor, StressSnap.getStressLabel.
    destruct (le level (of_Z 3)); [|destruct (le level (of_Z 6))];
      (split; [|split]);
      (split; intros E; first [ discriminate E | reflexivity ]).
Qed.

Lemma stress_mean_ok_all :
  forallb (fun n => forallb (StressSnap.stress_mean_ok n) (zrange 0 (10 * n)))
          (zrange 1 10) = true.
Proof. vm_compute. reflexivity. Qed.

Lemma stress_mean_exact (n s : Z) :
  1 <= n <= 10 -> 0 <= s <= 10 * n ->
  Math_round (div (of_Z s) (of_Z n)) = of_Z ((2 * s + n) / (2 * n)).
Proof.
  intros Hn Hs. pose proof stress_mean_ok_all as H.
  rewrite forallb_forall in H. specialize (H n (zrange_In _ _ _ Hn)).
  rewrite forallb_forall in H. specialize (H s (zrange_In _ _ _ Hs)).
  apply bool_decide_eq_true in H. exact H.
Qed.

(** X6: The average shown over the readings loaded (the ten most recent),
    when the levels stored pass the check of the table: it is the integer
    nearest to their mean (ties upwards), between 1 and 10; the binary64
    sum, division and rounding lose nothing. *)
Theorem avgStress_exact (st : StressSnap.State) :
  StressSnap.table st <> [] ->
  Forall (fun r => 1 <= StressSnap.stress_level r <= 10) (StressSnap.table st) ->
  let readings := StressSnap.loadReadings st in
  let n := Z.of_nat (length readings) in
  let s := sumZ (map StressSnap.stress_level readings) in
  let k := (2 * s + n) / (2 * n) in
  StressSnap.avgStress readings = of_Z k /\
  1 <= n <= 10 /\
  1 <= k <= 10 /\
  2 * n * k <= 2 * s + n < 2 * n * (k + 1).
Proof.
  intros Hne Htable readings.
  assert (Hall : Forall (fun r => 1 <= StressSnap.stress_level r <= 10) readings).
  { subst readings. unfold StressSnap.loadReadings. apply Forall_take.
    apply Forall_forall. intros r Hr.
    apply list_elem_of_In, in_rev, list_elem_of_In in Hr.
    rewrite Forall_forall in Htable. exact (Htable r Hr). }
  assert (Hlen : (1 <= length readings <= 10)%nat).
  { subst readings. unfold StressSnap.loadReadings.
    rewrite length_take, length_rev.
    destruct (StressSnap.table st); [congruence | cbn [length]; lia]. }
  clearbody readings. intros n s k.
  assert (Hn : 1 <= n <= 10) by (subst n; lia).
  pose proof (sumZ_bounds StressSnap.stress_level 1 10 readings Hall) as Hs.
  fold n s in Hs.
  pose proof (nearest_bounds n s ltac:(lia)) as Hk. fold k in Hk.
  split; [|split; [exact Hn | split; [nia | exact Hk]]].
  unfold StressSnap.avgStress.
  destruct (Nat.ltb_spec 0 (length readings)) as [_|H]; [|lia].
  rewrite reduce_exact.
  - fold n s. apply stress_mean_exact; lia.
  - eapply Forall_impl; [exact Hall|]. cbn. intros; lia.
  - fold s. assert (2 ^ 53 = 9007199254740992) by reflexivity. lia.
Qed.

Lemma avgStress_exact_witness :
  let reading hr level :=
    {| StressSnap.heart_rate := hr; StressSnap.stress_level := level;
       StressSnap.data_source := StressSnap.manual;
       StressSnap.intervention_triggered := 7 <=? level |} in
  let st := {| StressSnap.heartRate := 72;
               StressSnap.dataSource := StressSnap.manual;
               StressSnap.table := [reading 72 5; reading 85 7;
                                    reading 66 3; reading 91 8] |} in
  StressSnap.table st <> [] /\
  Forall (fun r => 1 <= StressSnap.stress_level r <= 10) (StressSnap.table st) /\
  StressSnap.avgStress (StressSnap.loadReadings st) = of_Z 6.
Proof.
  intros reading st.
  assert (H1 : StressSnap.table st <> []) by discriminate.
  assert (H2 : Forall (fun r => 1 <= StressSnap.stress_level r <= 10)
                      (StressSnap.table st))
    by (repeat constructor; cbn; lia).
  split; [exact H1|]. split; [exact H2|].
  destruct (avgStress_exact st H1 H2) as [H _]. exact H.
Defined.

End StressReadings.

(* ===================================================================== *)
(** ** Mood journal: what a saved entry holds                             *)
(* ===================================================================== *)

Section JournalEntries.
Import JS MoodJournal.

Lemma verdict_ok_all :
  forallb (fun p => forallb (verdict_ok p) (seq 0 11)) (seq 0 11) = true.
Proof. vm_compute. reflexivity. Qed.

(** The comparisons [generateInsights] and a reader of the score make,
    read off the numbers of positive and negative words of the text. *)
Lemma verdicts (text : string) :
  let p := occurring positiveWords text in
  let n := occurring negativeWords text in
  let score := analyzeSentiment text in
  lt score (neg n0_3) = ((p + 4 <=? n) || ((n =? p + 3) && (p <=? 2)))%nat /\
  gt score n0_3 = (n + 3 <=? p)%nat /\
  lt score zero = (p <? n)%nat /\
  lt zero score = ((n <? p) || ((n =? p) && (3 <=? p)))%nat.
Proof.
  intros p n score. subst score.
  destruct (analyzeSentiment_facts text) as [_ [_ [_ [-> _]]]].
  rewrite SentimentFacts.rawScore_accumulate. fold p n.
  assert (Hp : In p (seq 0 11)).
  { apply in_seq. pose proof (SentimentFacts.occurring_positive_le text) as Hle.
    unfold p. lia. }
  assert (Hn : In n (seq 0 11)).
  { apply in_seq. pose proof (SentimentFacts.occurring_negative_le text) as Hle.
    unfold n. lia. }
  pose proof verdict_ok_all as H. rewrite forallb_forall in H.
  specialize (H p Hp). rewrite forallb_forall in H.
  specialize (H n Hn). clearbody p n.
  unfold verdict_ok in H.
  repeat (apply andb_prop in H; destruct H as [H ?]).
  repeat match goal with E : Bool.eqb _ _ = true |- _ =>
    apply Bool.eqb_prop in E end.
  repeat split; assumption.
Qed.

(** X1: The sign of the score follows the word counts: it is negative exactly
    when the negative words outnumber the positive ones, and positive
    exactly when the positive words outnumber the negative ones or when
    the two counts are equal and at least 3 (the roundings of the
    additions then leave a positive residue). *)
Theorem sentiment_sign (text : string) :
  let p := occurring positiveWords text in
  let n := occurring negativeWords text in
  (lt (analyzeSentiment text) zero = true <-> (p < n)%nat) /\
  (lt zero (analyzeSentiment text) = true
   <-> (n < p)%nat \/ (n = p /\ 3 <= p)%nat).
Proof.
  intros p n. destruct (verdicts text) as [_ [_ [Hneg Hpos]]].
  fold p n in Hneg, Hpos. rewrite Hneg, Hpos. split.
  - apply Nat.ltb_lt.
  - rewrite orb_true_iff, andb_true_iff, Nat.ltb_lt, Nat.eqb_eq, Nat.leb_le.
    reflexivity.
Qed.

Lemma append_cancel_l (base s1 s2 : string) :
  (base ++ s1)%string = (base ++ s2)%string -> s1 = s2.
Proof.
  induction base as [|c base IH]; cbn; intros E; [exact E|].
  injection E as E. exact (IH E).
Qed.

(** For a mood that names no inherited member, [insights[mood] || [...]]
    is the pool of the mood, or the generic pool. *)
Lemma moodInsights_pool (mood : string) :
  Object_prototype !! mood = None ->
  moodInsights mood = Pool (default [fallbackInsight] (insights !! mood)).
Proof.
  intros H. unfold moodInsights, lookup_insights.
  destruct (insights !! mood); [reflexivity|]. rewrite H. reflexivity.
Qed.

Ltac lookup_pool :=
  unfold insights; simpl list_to_map;
  repeat (rewrite lookup_insert; case_decide; [subst; simpl|]);
  try rewrite lookup_empty; simpl.

Lemma pool_length (mood : string) :
  (0 < length (default [fallbackInsight] (insights !! mood)) <= 3)%nat.
Proof. lookup_pool; lia. Qed.

Lemma pool_unknown (mood : string) :
  mood ∉ knownMoods ->
  default [fallbackInsight] (insights !! mood) = [fallbackInsight].
Proof.
  intros Hm. unfold knownMoods in Hm.
  lookup_pool; try reflexivity; exfalso; apply Hm; set_solver.
Qed.

(** The pools of the six moods the journal offers hold three messages
    each, none of which is the generic one, and none of the six names is
    the name of an inherited member. *)
Lemma offered_pools :
  Forall (fun mood =>
            (fallbackInsight ∉ default [fallbackInsight] (insights !! mood)) /\
            length (default [fallbackInsight] (insights !! mood)) = 3%nat /\
            Object_prototype !! mood = None) knownMoods.
Proof.
  unfold knownMoods.
  repeat (apply Forall_cons; split;
          [split; [apply (bool_decide_unpack _); vm_compute; exact I
                  | split; vm_compute; reflexivity]|]).
  apply Forall_nil. exact I.
Qed.

(** The message drawn from the pool is one of its members. *)
Lemma randomInsight_in_pool (rnd : number) (mood : string) :
  is_draw rnd = true -> Object_prototype !! mood = None ->
  exists base : string,
    base ∈ default [fallbackInsight] (insights !! mood) /\
    at_index (moodInsights mood)
             (randomIndex rnd (length_of (moodInsights mood))) = Some base.
Proof.
  intros Hdraw Hown. rewrite (moodInsights_pool mood Hown).
  cbn [length_of at_index]. unfold randomIndex.
  pose proof (pool_length mood) as Hlen.
  set (pool := default [fallbackInsight] (insights !! mood)) in *.
  destruct (element_random pool rnd Hdraw) as [i [base [_ [Hi [_ Hbase]]]]].
  - destruct pool; [cbn in Hlen; lia | discriminate].
  - assert (2 ^ 53 = 9007199254740992) by reflexivity. lia.
  - exists base. split; [eapply list_elem_of_lookup_2; exact Hi | exact Hbase].
Qed.

(** X23: the structure of an insight, for every mood that is not the name
    of a member objects inherit.  Whatever [Math.random] draws (the product
    with the length of the pool is the binary64 one), the insight is a
    member [base] of the pool of the mood followed by the self-care suffix
    when the sentiment is below -0.3, by the positive-energy suffix when it
    is above 0.3, and by nothing when it lies in [-0.3, 0.3]; a suffix is
    appended iff one of the two strict comparisons holds; the pool of each
    of the six known categories is the one of the source, and for any
    other mood the base message is the generic one.  The three cases are
    stated on the comparisons of the source and, for a well-formed
    sentiment, on the rational it denotes. *)
Theorem insight_structure
  (rnd : number) (mood text : string) (sentiment : number) :
  is_draw rnd = true -> Object_prototype !! mood = None ->
  exists base : string,
    (lt sentiment (neg n0_3) = true ->
       generateInsights rnd mood text sentiment
       = Some (base ++ " Your entry suggests you might benefit from extra self-care today.")%string) /\
    (gt sentiment n0_3 = true ->
       generateInsights rnd mood text sentiment
       = Some (base ++ " Your positive energy is wonderful to see!")%string) /\
    (le (neg n0_3) sentiment = true -> le sentiment n0_3 = true ->
       generateInsights rnd mood text sentiment = Some base) /\
    (generateInsights rnd mood text sentiment <> Some base
       <-> lt sentiment (neg n0_3) = true \/ gt sentiment n0_3 = true) /\
    (forall q : Q,
        valid sentiment = true -> to_Q sentiment = Some q ->
        ((q < - (3 # 10))%Q ->
           generateInsights rnd mood text sentiment
           = Some (base ++ " Your entry suggests you might benefit from extra self-care today.")%string) /\
        ((3 # 10 < q)%Q ->
           generateInsights rnd mood text sentiment
           = Some (base ++ " Your positive energy is wonderful to see!")%string) /\
        ((- (3 # 10) <= q)%Q -> (q <= 3 # 10)%Q ->
           generateInsights rnd mood text sentiment = Some base)) /\
    (mood = "anxious"%string ->
       base ∈ ["Try the 4-7-8 breathing technique to calm your nervous system.";
               "Consider a 5-minute meditation to ground yourself.";
               "Take a short walk outside to reset your mind."]%string) /\
    (mood = "sad"%string ->
       base ∈ ["Reach out to a friend or loved one for connection.";
               "Practice self-compassion - it's okay to feel this way.";
               "Try gentle movement like yoga or stretching."]%string) /\
    (mood = "frustrated"%string ->
       base ∈ ["Take a brief break to reset before continuing.";
               "Journal about what's causing frustration to gain clarity.";
               "Try progressive muscle relaxation to release tension."]%string) /\
    (mood = "tired"%string ->
       base ∈ ["Consider your sleep schedule - are you getting 7-9 hours?";
               "A 10-minute power nap might help recharge.";
               "Review your evening routine for better rest tonight."]%string) /\
    (mood = "happy"%string ->
       base ∈ ["Great! Capture this moment in your gratitude journal.";
               "Share your positivity with the CalmCircle community.";
               "Notice what contributed to this feeling."]%string) /\
    (mood = "calm"%string ->
       base ∈ ["Wonderful! You're in a great state for meditation or reflection.";
               "This is an ideal time for creative work or planning.";
               "Consider what helped you reach this peaceful state."]%string) /\
    (mood ∉ knownMoods ->
       base = "Keep tracking your mood to identify patterns."%string).
Proof.
  intros Hdraw Hown.
  destruct (randomInsight_in_pool rnd mood Hdraw Hown) as [base [Hin Hbase]].
  exists base.
  assert (Hlow : lt sentiment (neg n0_3) = true ->
                 generateInsights rnd mood text sentiment
                 = Some (base ++ selfCareSuffix)%string).
  { intros Hlt. unfold generateInsights. rewrite Hbase, Hlt. reflexivity. }
  assert (Hhigh : gt sentiment n0_3 = true ->
                  generateInsights rnd mood text sentiment
                  = Some (base ++ positiveSuffix)%string).
  { intros Hgt. unfold generateInsights.
    rewrite Hbase, (above_not_below _ Hgt), Hgt. reflexivity. }
  assert (Hmid : le (neg n0_3) sentiment = true -> le sentiment n0_3 = true ->
                 generateInsights rnd mood text sentiment = Some base).
  { intros Hlo Hhi. unfold generateInsights.
    rewrite Hbase, (le_not_gt _ _ Hlo).
    change (gt sentiment n0_3) with (lt n0_3 sentiment).
    rewrite (le_not_gt _ _ Hhi). reflexivity. }
  split; [exact Hlow|]. split; [exact Hhigh|]. split; [exact Hmid|].
  split.
  { unfold generateInsights. rewrite Hbase.
    cbn [template default from_option id].
    destruct (lt sentiment (neg n0_3)) eqn:Elt.
    - split; [auto|]. intros _ E. injection E as E.
      revert E. apply append_suffix_neq. discriminate.
    - destruct (gt sentiment n0_3) eqn:Egt.
      + split; [auto|]. intros _ E. injection E as E.
        revert E. apply append_suffix_neq. discriminate.
      + split; [intros Hne; now destruct Hne | intros [?|?]; discriminate]. }
  split.
  { intros q Hv Hq.
    destruct (thresholds_exact sentiment q Hv Hq) as [Hgt Hlt].
    pose proof (thresholds_between sentiment q Hv Hq) as Hbetween.
    split; [intros Hq1; apply Hlow, Hlt, Hq1|].
    split; [intros Hq1; apply Hhigh, Hgt, Hq1|].
    intros Hq1 Hq2. destruct (proj2 Hbetween (conj Hq1 Hq2)) as [Ha Hb].
    apply Hmid; assumption. }
  repeat (split; [intros ->; exact Hin|]).
  intros Hm. rewrite (pool_unknown mood Hm) in Hin.
  apply list_elem_of_singleton in Hin. exact Hin.
Qed.

(** At the draw 0.3333333333333333, whose product with 3 rounds to 1: a
    sad entry with four negative words (sentiment -0.4) gets the second
    message of the pool, and an entry of a mood that is not offered, with
    neutral sentiment, gets the generic message. *)
Lemma insight_structure_witness :
  is_draw (lit 1 3) = true /\
  Object_prototype !! "sad"%string = None /\
  Object_prototype !! "excited"%string = None /\
  lt (analyzeSentiment "so sad and in pain, awful, I hate it") (neg n0_3) = true /\
  le (neg n0_3) zero = true /\ le zero n0_3 = true /\
  ("excited"%string ∉ knownMoods) /\
  randomIndex (lit 1 3) (of_Z 3) = of_Z 1 /\
  generateInsights (lit 1 3) "sad" "so sad and in pain, awful, I hate it"
    (analyzeSentiment "so sad and in pain, awful, I hate it")
  = Some "Practice self-compassion - it's okay to feel this way. Your entry suggests you might benefit from extra self-care today."%string /\
  generateInsights (lit 1 3) "excited" "a day" zero
  = Some "Keep tracking your mood to identify patterns."%string.
Proof.
  assert (Ha : is_draw (lit 1 3) = true) by (vm_compute; reflexivity).
  assert (Hb : Object_prototype !! "sad"%string = None)
    by (vm_compute; reflexivity).
  assert (Hb' : Object_prototype !! "excited"%string = None)
    by (vm_compute; reflexivity).
  assert (Hc : lt (analyzeSentiment "so sad and in pain, awful, I hate it")
                  (neg n0_3) = true) by (vm_compute; reflexivity).
  assert (Hd : le (neg n0_3) zero = true) by reflexivity.
  assert (He : le zero n0_3 = true) by reflexivity.
  assert (Hf : "excited"%string ∉ knownMoods).
  { unfold knownMoods. intros Hin.
    repeat (apply elem_of_cons in Hin; destruct Hin as [Hin|Hin];
            [discriminate Hin|]).
    apply elem_of_nil in Hin. exact Hin. }
  split; [exact Ha|]. split; [exact Hb|]. split; [exact Hb'|].
  split; [exact Hc|]. split; [exact Hd|]. split; [exact He|].
  split; [exact Hf|]. split; [vm_compute; reflexivity|].
  split; [vm_compute; reflexivity|].
  destruct (insight_structure (lit 1 3) "excited" "a day" zero Ha Hb')
    as [base [_ [_ [Hmid [_ [_ [_ [_ [_ [_ [_ [_ Hunknown]]]]]]]]]]]].
  rewrite (Hmid Hd He). f_equal. apply Hunknown. exact Hf.
Defined.

(** X2: Which suffix the insight of a text gets, by word counts, for a
    mood that is not the name of a member objects inherit.  The positive
    suffix needs three more positive than negative words; the self-care
    suffix needs four more negative than positive words, or three more
    when at most two positive words occur. *)
Theorem insight_suffix_by_counts (rnd : number) (mood text : string) :
  is_draw rnd = true -> Object_prototype !! mood = None ->
  let p := occurring positiveWords text in
  let n := occurring negativeWords text in
  let insight := generateInsights rnd mood text (analyzeSentiment text) in
  exists base : string,
    base ∈ default [fallbackInsight] (insights !! mood) /\
    (insight = Some (base ++ selfCareSuffix)%string
     <-> (p + 4 <= n)%nat \/ (n = p + 3 /\ p <= 2)%nat) /\
    (insight = Some (base ++ positiveSuffix)%string <-> (n + 3 <= p)%nat) /\
    (insight = Some base
     <-> ~ ((p + 4 <= n)%nat \/ (n = p + 3 /\ p <= 2)%nat) /\ ~ (n + 3 <= p)%nat).
Proof.
  intros Hdraw Hown p n insight.
  destruct (randomInsight_in_pool rnd mood Hdraw Hown) as [base [Hin Hbase]].
  exists base. split; [exact Hin|].
  destruct (verdicts text) as [Hlow [Hhigh _]]. fold p n in Hlow, Hhigh.
  assert (Hself : (base ++ selfCareSuffix)%string <> base)
    by (apply append_suffix_neq; discriminate).
  assert (Hposi : (base ++ positiveSuffix)%string <> base)
    by (apply append_suffix_neq; discriminate).
  assert (Hdiff : (base ++ selfCareSuffix)%string <> (base ++ positiveSuffix)%string).
  { intros E. apply append_cancel_l in E. discriminate E. }
  subst insight. unfold generateInsights. rewrite Hbase.
  cbn [template default from_option id]. rewrite Hlow, Hhigh.
  destruct (Nat.leb_spec (p + 4) n) as [A|A];
    destruct (Nat.eqb_spec n (p + 3)) as [B|B];
    destruct (Nat.leb_spec p 2) as [C|C];
    destruct (Nat.leb_spec (n + 3) p) as [D|D];
    cbn [orb andb];
    (split; [|split]); split; intros E;
    first [ reflexivity | lia | congruence | exfalso; lia
          | exfalso; congruence | exfalso; symmetry in E; congruence ].
Qed.

Lemma insight_suffix_by_counts_witness :
  is_draw (lit 1 3) = true /\
  Object_prototype !! "tired"%string = None /\
  occurring positiveWords "sad, bad, and in pain" = 0%nat /\
  occurring negativeWords "sad, bad, and in pain" = 3%nat /\
  exists base : string,
    base ∈ default [fallbackInsight] (insights !! "tired"%string) /\
    generateInsights (lit 1 3) "tired" "sad, bad, and in pain"
                     (analyzeSentiment "sad, bad, and in pain")
    = Some (base ++ selfCareSuffix)%string.
Proof.
  assert (Ha : is_draw (lit 1 3) = true) by (vm_compute; reflexivity).
  assert (Hb : Object_prototype !! "tired"%string = None)
    by (vm_compute; reflexivity).
  assert (Hp : occurring positiveWords "sad, bad, and in pain" = 0%nat)
    by (vm_compute; reflexivity).
  assert (Hn : occurring negativeWords "sad, bad, and in pain" = 3%nat)
    by (vm_compute; reflexivity).
  split; [exact Ha|]. split; [exact Hb|]. split; [exact Hp|]. split; [exact Hn|].
  destruct (insight_suffix_by_counts (lit 1 3) "tired" "sad, bad, and in pain"
              Ha Hb) as [base [Hin [Hself _]]].
  exists base. split; [exact Hin|]. apply Hself. rewrite Hp, Hn. right. lia.
Defined.

(** X3: Saving an entry, whatever [Math.random] draws.  Nothing is stored
    and the form is kept when no mood is selected, when the text is blank
    or when the insert fails.  Otherwise one row is appended and the form
    is reset; the row holds the mood and the text of the form and a
    well-formed score in [-1, 1] (the check of the column); and for a mood
    that is not the name of a member objects inherit, as the six moods the
    journal offers are, its insight is a message of the pool of the mood
    with or without one of the two suffixes, a message that for the six
    moods is never the generic one. *)
Theorem handleSave_entry (rnd : number) (error : bool) (st : State) :
  is_draw rnd = true ->
  (selectedMood st = EmptyString \/ blank (entryText st) = true
   \/ error = true -> handleSave rnd error st = st) /\
  (selectedMood st <> EmptyString -> blank (entryText st) = false ->
   error = false ->
   selectedMood (handleSave rnd error st) = EmptyString /\
   entryText (handleSave rnd error st) = EmptyString /\
   shareToCommunity (handleSave rnd error st) = false /\
   exists row : MoodEntry,
     table (handleSave rnd error st) = table st ++ [row] /\
     mood_type row = selectedMood st /\
     entry_text row = entryText st /\
     shared_to_community row = shareToCommunity st /\
     sentiment_score row = analyzeSentiment (entryText st) /\
     valid (sentiment_score row) = true /\
     le (neg (of_Z 1)) (sentiment_score row) = true /\
     le (sentiment_score row) (of_Z 1) = true /\
     (selectedMood st ∈ knownMoods ->
      Object_prototype !! selectedMood st = None) /\
     (Object_prototype !! selectedMood st = None ->
      exists base : string,
        base ∈ default [fallbackInsight] (insights !! selectedMood st) /\
        ai_insights row
          ∈ [Some base; Some (base ++ selfCareSuffix)%string;
             Some (base ++ positiveSuffix)%string] /\
        (selectedMood st ∈ knownMoods -> base <> fallbackInsight))).
Proof.
  intros Hdraw. unfold handleSave. split.
  - intros [H|[H|H]].
    + rewrite H. reflexivity.
    + rewrite H, orb_true_r. reflexivity.
    + rewrite H. destruct (_ || _); reflexivity.
  - intros Hmood Hblank Herr. rewrite Hblank, Herr, orb_false_r.
    destruct (String.eqb_spec (selectedMood st) EmptyString) as [E|_];
      [contradiction|].
    cbn [selectedMood entryText shareToCommunity table].
    repeat (split; [reflexivity|]).
    eexists. split; [reflexivity|].
    cbn [mood_type entry_text shared_to_community sentiment_score ai_insights].
    repeat (split; [reflexivity|]).
    destruct (analyzeSentiment_facts (entryText st))
      as [Hv [Hlo [Hhi [Hclamp _]]]].
    rewrite Hclamp. repeat (split; [assumption|]).
    pose proof offered_pools as Hpools. rewrite Forall_forall in Hpools.
    split; [intros Hknown; apply (Hpools _ Hknown)|].
    intros Hown.
    destruct (randomInsight_in_pool rnd (selectedMood st) Hdraw Hown)
      as [base [Hin Hbase]].
    exists base. split; [exact Hin|]. split.
    + unfold generateInsights. rewrite Hbase.
      cbn [template default from_option id].
      destruct (lt _ _); [right; left|].
      destruct (gt _ _); [right; right; left | left].
    + intros Hknown Hfb. subst base.
      destruct (Hpools _ Hknown) as [Hnot _]. exact (Hnot Hin).
Qed.

Lemma handleSave_entry_witness :
  let st := {| selectedMood := "calm"; entryText := "A calm and good day";
               shareToCommunity := true; table := [] |} in
  is_draw (lit 1 3) = true /\
  selectedMood st <> EmptyString /\ blank (entryText st) = false /\
  false = false /\
  selectedMood (handleSave (lit 1 3) false st) = EmptyString /\
  length (table (handleSave (lit 1 3) false st)) = 1%nat /\
  (ai_insights <$> table (handleSave (lit 1 3) false st))
  = [Some "This is an ideal time for creative work or planning."%string].
Proof.
  intros st.
  assert (Ha : is_draw (lit 1 3) = true) by (vm_compute; reflexivity).
  assert (Hm : selectedMood st <> EmptyString) by discriminate.
  assert (Ht : blank (entryText st) = false) by reflexivity.
  assert (He : false = false) by reflexivity.
  destruct (handleSave_entry (lit 1 3) false st Ha) as [_ H].
  destruct (H Hm Ht He) as [Hmood [_ [_ [row [Htable _]]]]].
  split; [exact Ha|]. split; [exact Hm|].
  split; [exact Ht|]. split; [exact He|]. split; [exact Hmood|].
  split; [rewrite Htable; reflexivity|].
  vm_compute. reflexivity.
Defined.

End JournalEntries.

(* ===================================================================== *)
(** ** Sleep history: the form, the averages, the history line, the tips  *)
(* ===================================================================== *)

Section SleepHistory.
Import JS SleepPal.

Lemma quality_mean_ok_all :
  forallb (fun n => forallb (quality_mean_ok n) (zrange 0 (10 * n)))
          (zrange 1 7) = true.
Proof. vm_compute. reflexivity. Qed.

Lemma quality_mean_exact (n s : Z) :
  1 <= n <= 7 -> 0 <= s <= 10 * n ->
  Math_round (mul (div (of_Z s) (of_Z n)) (of_Z 10))
  = of_Z ((20 * s + n) / (2 * n)).
Proof.
  intros Hn Hs. pose proof quality_mean_ok_all as H.
  rewrite forallb_forall in H. specialize (H n (zrange_In _ _ _ Hn)).
  rewrite forallb_forall in H. specialize (H s (zrange_In _ _ _ Hs)).
  apply bool_decide_eq_true in H. exact H.
Qed.

Lemma nearest_tenth (n s : Z) :
  0 < n ->
  2 * n * ((20 * s + n) / (2 * n)) <= 20 * s + n
  < 2 * n * ((20 * s + n) / (2 * n) + 1).
Proof.
  intros Hn. split.
  - apply Z.mul_div_le. lia.
  - pose proof (Z.mul_succ_div_gt (20 * s + n) (2 * n) ltac:(lia)). lia.
Qed.

(** X7: The average quality of at most seven nights (what the component
    loads) whose scores pass the check 1 <= quality_score <= 10 is k / 10
    for the number k of tenths nearest to the mean (ties upwards), between
    10 and 100: the sum, the division, the product and the rounding lose
    nothing. *)
Theorem avgQuality_exact (sessions : list SleepSession) :
  sessions <> [] -> (length sessions <= 7)%nat ->
  Forall (fun r => 1 <= quality_score r <= 10) sessions ->
  let n := Z.of_nat (length sessions) in
  let s := sumZ (map quality_score sessions) in
  let k := (20 * s + n) / (2 * n) in
  avgQuality sessions = div (of_Z k) (of_Z 10) /\
  10 <= k <= 100 /\
  2 * n * k <= 20 * s + n < 2 * n * (k + 1).
Proof.
  intros Hne Hlen Hall n s k.
  assert (Hn : 1 <= n <= 7) by (destruct sessions; [congruence | cbn in *; lia]).
  pose proof (sumZ_bounds quality_score 1 10 sessions Hall) as Hs.
  fold n s in Hs.
  pose proof (nearest_tenth n s ltac:(lia)) as Hk. fold k in Hk.
  split; [|split; [nia | exact Hk]].
  unfold avgQuality, reduce_sum, length_number.
  destruct (Nat.ltb_spec 0 (length sessions)) as [_|H]; [|lia].
  rewrite reduce_exact.
  - fold n s. rewrite quality_mean_exact by lia. reflexivity.
  - eapply Forall_impl; [exact Hall|]. cbn. intros; lia.
  - fold s. assert (2 ^ 53 = 9007199254740992) by reflexivity. lia.
Qed.

Lemma avgQuality_exact_witness :
  let night q := {| sleep_start := 0; sleep_end := 28800000;
                    duration_minutes := 480; quality_score := q;
                    bedtime_routine_followed := true |} in
  let sessions := [night 7; night 8; night 8] in
  sessions <> [] /\ (length sessions <= 7)%nat /\
  Forall (fun r => 1 <= quality_score r <= 10) sessions /\
  avgQuality sessions = div (of_Z 77) (of_Z 10).
Proof.
  intros night sessions.
  assert (H1 : sessions <> []) by discriminate.
  assert (H2 : (length sessions <= 7)%nat) by (cbn; lia).
  assert (H3 : Forall (fun r => 1 <= quality_score r <= 10) sessions)
    by (repeat constructor; cbn; lia).
  split; [exact H1|]. split; [exact H2|]. split; [exact H3|].
  destruct (avgQuality_exact sessions H1 H2 H3) as [H _]. exact H.
Defined.


(** X8: Whatever the user does with the form, the rows already stored stay as
    they are, a save adds at most one row, and every row added holds the
    whole minutes between its two instants and, when the slider only gives
    qualities from 1 to 10, a quality that passes the check of the table. *)
Theorem run_appends_sessions (actions : list Action) (st : State) :
  1 <= quality st <= 10 ->
  Forall (fun a => match a with
                   | SetQuality v => 1 <= v <= 10
                   | _ => True
                   end) actions ->
  exists added : list SleepSession,
    table (run st actions) = table st ++ added /\
    (length added
     <= length (List.filter (fun a => match a with Save => true | _ => false end)
                            actions))%nat /\
    Forall (fun r =>
              duration_minutes r
              = Math_floor_div (sleep_end r - sleep_start r) 60000 /\
              1 <= quality_score r <= 10) added /\
    1 <= quality (run st actions) <= 10.
Proof.
  revert st. induction actions as [|a actions IH]; intros st Hq Hall.
  { exists []. rewrite app_nil_r. repeat split; try constructor; cbn; lia. }
  apply Forall_cons in Hall as [Ha Hall]. unfold run. cbn [fold_left].
  fold (run (act st a) actions).
  assert (Hstep : exists one : list SleepSession,
             table (act st a) = table st ++ one /\
             (length one <= (if match a with Save => true | _ => false end
                             then 1 else 0))%nat /\
             Forall (fun r =>
                       duration_minutes r
                       = Math_floor_div (sleep_end r - sleep_start r) 60000 /\
                       1 <= quality_score r <= 10) one /\
             1 <= quality (act st a) <= 10).
  { destruct a; cbn [act quality table];
      try (exists []; rewrite app_nil_r;
           split; [reflexivity|]; split; [cbn; lia|];
           split; [constructor | lia]).
    unfold saveSleepSession.
    destruct (sleepStart st) as [start|], (sleepEnd st) as [end_|];
      cbn [table quality];
      try (exists []; rewrite app_nil_r;
           split; [reflexivity|]; split; [cbn; lia|];
           split; [constructor | lia]).
    eexists [_]. split; [reflexivity|]. split; [cbn; lia|].
    split; [|lia]. constructor; [|constructor].
    cbn [duration_minutes sleep_end sleep_start quality_score]. split; [reflexivity | lia]. }
  destruct Hstep as [one [Hone [Hlen [Hrows Hq']]]].
  destruct (IH (act st a) Hq' Hall) as [added [Hadded [Hcount [Hrest Hfinal]]]].
  exists (one ++ added). rewrite Hadded, Hone, app_assoc.
  split; [reflexivity|]. split.
  - rewrite length_app. cbn [List.filter].
    destruct (match a with Save => true | _ => false end); cbn [length]; lia.
  - split; [apply Forall_app; split; assumption | exact Hfinal].
Qed.

Lemma run_appends_sessions_witness :
  let actions := [SetSleepStart (Some 0); SetQuality 9; Save;
                  SetSleepEnd (Some 27000000); Save; Save] in
  1 <= quality (initial []) <= 10 /\
  Forall (fun a => match a with
                   | SetQuality v => 1 <= v <= 10
                   | _ => True
                   end) actions /\
  exists added : list SleepSession,
    table (run (initial []) actions) = added /\ (length added <= 3)%nat.
Proof.
  intros actions.
  assert (Hq : 1 <= quality (initial []) <= 10) by (cbn; lia).
  assert (Hall : Forall (fun a => match a with
                                  | SetQuality v => 1 <= v <= 10
                                  | _ => True
                                  end) actions)
    by (repeat constructor; lia).
  split; [exact Hq|]. split; [exact Hall|].
  destruct (run_appends_sessions actions (initial []) Hq Hall)
    as [added [Htable [Hlen _]]].
  exists added. split; [exact Htable | exact Hlen].
Defined.

(** X9: The history line "[h]h [m]m" of a stored duration d.  For a duration
    that is not negative it reads as d: 0 <= m < 60 and 60 h + m = d.  For
    a negative duration that is not a whole number of hours the two parts
    add up to d - 60, an hour less than what is stored. *)
Theorem history_line (d : Z) :
  (0 <= d ->
   0 <= historyMinutes d < 60 /\ 60 * historyHours d + historyMinutes d = d) /\
  (d < 0 -> d mod 60 <> 0 ->
   -60 < historyMinutes d < 0 /\
   60 * historyHours d + historyMinutes d = d - 60) /\
  (d mod 60 = 0 -> historyMinutes d = 0 /\ 60 * historyHours d = d).
Proof.
  unfold historyMinutes, historyHours, Math_floor_div.
  pose proof (Z.div_mod d 60 ltac:(lia)) as Hdiv.
  pose proof (Z.mod_pos_bound d 60 ltac:(lia)) as Hmod.
  pose proof (Z.quot_rem' d 60) as Hquot.
  split; [|split].
  - intros Hd. rewrite Z.rem_mod_nonneg by lia.
    split; [exact Hmod | symmetry; exact Hdiv].
  - intros Hd Hnz.
    pose proof (Z.rem_bound_pos_neg d 60 ltac:(lia) ltac:(lia)) as Hrem.
    assert (Hr : Z.rem d 60 = d mod 60 - 60).
    { assert (Hex : exists q, d mod 60 - Z.rem d 60 = 60 * q)
        by (exists (Z.quot d 60 - d / 60); lia).
      destruct Hex as [q Hq]. lia. }
    lia.
  - intros Hz.
    assert (Hr : Z.rem d 60 = 0).
    { destruct (Z.rem_mod_eq_0 d 60 ltac:(lia)) as [_ H]. exact (H Hz). }
    lia.
Qed.

Lemma history_line_witness :
  -90 < 0 /\ (-90) mod 60 <> 0 /\
  historyHours (-90) = -2 /\ historyMinutes (-90) = -30 /\
  60 * historyHours (-90) + historyMinutes (-90) = -90 - 60.
Proof.
  assert (Hd : -90 < 0) by lia.
  assert (Hm : (-90) mod 60 <> 0) by (vm_compute; discriminate).
  destruct (history_line (-90)) as [_ [H _]].
  destruct (H Hd Hm) as [_ Hsum].
  split; [exact Hd|]. split; [exact Hm|].
  split; [reflexivity|]. split; [reflexivity | exact Hsum].
Defined.

(** X10: The tips.  A query that succeeds shows the texts of the three most
    recent tips and stores nothing, also when the user has no tip at all:
    the tips are generated only when the query fails.  Generating stores
    the three tips, each of a type the table admits, and a later load shows
    the three texts, the last stored first. *)
Theorem loadTips_seeding (tipTable : list SleepTip) :
  fst (loadTips false tipTable) = tipTable /\
  (length (snd (loadTips false tipTable)) <= 3)%nat /\
  (tipTable = [] -> snd (loadTips false tipTable) = []) /\
  fst (loadTips true tipTable) = tipTable ++ newTips /\
  Forall (fun t => tip_type t ∈ tipTypes) newTips /\
  length (snd (loadTips true tipTable)) = 3%nat /\
  loadTips false (fst (loadTips true tipTable))
  = (fst (loadTips true tipTable), rev (snd (loadTips true tipTable))).
Proof.
  unfold loadTips, generateTips. cbn [fst snd].
  split; [reflexivity|]. split.
  { rewrite length_map, length_take. lia. }
  split; [intros ->; reflexivity|].
  split; [reflexivity|]. split.
  { unfold newTips, tipTypes. repeat constructor. }
  split; [reflexivity|].
  rewrite rev_app_distr, take_app_length' by reflexivity.
  rewrite map_rev. reflexivity.
Qed.

Lemma loadTips_seeding_witness :
  @nil SleepTip = [] /\ loadTips false [] = ([], []).
Proof.
  assert (H : @nil SleepTip = []) by reflexivity.
  split; [exact H|].
  destruct (loadTips_seeding []) as [Hfst [_ [Hsnd _]]].
  rewrite (surjective_pairing (loadTips false [])), Hfst, (Hsnd H).
  reflexivity.
Defined.

End SleepHistory.

(* ===================================================================== *)
(** ** MindGym: sessions of exercises, reloading, the breathing timer     *)
(* ===================================================================== *)

Section Training.
Import JS MindGym.

Lemma completeAll_snoc (st : State) (done : list (string * Z)) (c : string * Z) :
  completeAll st (done ++ [c])
  = completeExercise (completeAll st done) (fst c) (snd c).
Proof. unfold completeAll. rewrite fold_left_app. reflexivity. Qed.

(** X11: After a session of n exercises, with scores the table admits, the
    streak and the total have grown by n and the fitness level by n up to
    the cap of 100; the exercise view is as it was; n rows were appended,
    in order, with the ids and scores given, the i-th holding the streak
    and the level reached at that point; every row passes the checks
    0 <= score <= 100 and 1 <= fitness_level <= 100. *)
Theorem completeAll_closed_form (done : list (string * Z)) (st : State) :
  1 <= fitness_level (progress st) <= 100 ->
  Forall (fun c => 0 <= snd c <= 100) done ->
  let n := Z.of_nat (length done) in
  let st' := completeAll st done in
  streak_count (progress st') = streak_count (progress st) + n /\
  fitness_level (progress st') = Z.min 100 (fitness_level (progress st) + n) /\
  total_completed (progress st') = total_completed (progress st) + n /\
  activeExercise st' = activeExercise st /\
  exists added : list ProgressRow,
    table st' = table st ++ added /\
    map row_exercise_id added = map fst done /\
    map row_score added = map snd done /\
    forall (i : nat) (row : ProgressRow),
      added !! i = Some row ->
      row_streak_count row = streak_count (progress st) + Z.of_nat i + 1 /\
      row_fitness_level row
      = Z.min 100 (fitness_level (progress st) + Z.of_nat i + 1) /\
      0 <= row_score row <= 100 /\
      1 <= row_fitness_level row <= 100.
Proof.
  revert st. induction done as [|c done IH]; intros st Hfit Hscores' n st'.
  { subst n st'. cbn [completeAll fold_left length Z.of_nat].
    repeat (split; [lia || reflexivity|]).
    exists []. rewrite app_nil_r. repeat (split; [reflexivity|]).
    intros i row Hrow. rewrite lookup_nil in Hrow. discriminate Hrow. }
  subst n st'. change (completeAll st (c :: done))
    with (completeAll (completeExercise st (fst c) (snd c)) done).
  set (st1 := completeExercise st (fst c) (snd c)).
  assert (Hs1 : streak_count (progress st1) = streak_count (progress st) + 1)
    by reflexivity.
  assert (Hf1 : fitness_level (progress st1)
                = Z.min 100 (fitness_level (progress st) + 1)) by reflexivity.
  assert (Ht1 : total_completed (progress st1)
                = total_completed (progress st) + 1) by reflexivity.
  assert (Ha1 : activeExercise st1 = activeExercise st) by reflexivity.
  assert (Hfit1 : 1 <= fitness_level (progress st1) <= 100) by lia.
  apply Forall_cons in Hscores' as [Hscore Hscores'].
  destruct (IH st1 Hfit1 Hscores')
    as [Hs [Hf [Ht [Ha [added [Htab [Hids [Hscores Hrows]]]]]]]].
  cbn [length]. rewrite Nat2Z.inj_succ.
  split; [lia|]. split; [lia|]. split; [lia|]. split; [congruence|].
  eexists (_ :: added). split.
  { rewrite Htab. unfold st1, completeExercise. cbn [table].
    rewrite <- app_assoc. reflexivity. }
  split; [cbn [map row_exercise_id]; rewrite Hids; reflexivity|].
  split; [cbn [map row_score]; rewrite Hscores; reflexivity|].
  intros [|i] row Hrow.
  - injection Hrow as <-. cbn [row_streak_count row_fitness_level row_score].
    unfold newStreak, newFitnessLevel. lia.
  - destruct (Hrows i row Hrow) as [Hrs [Hrf [Hsc Hrange]]].
    rewrite Nat2Z.inj_succ. lia.
Qed.

Lemma completeAll_closed_form_witness :
  let done := [("box-breathing", 88); ("focus", 61); ("box-breathing", 99)]%string in
  1 <= fitness_level (progress initial) <= 100 /\
  Forall (fun c => 0 <= snd c <= 100) done /\
  streak_count (progress (completeAll initial done)) = 3 /\
  fitness_level (progress (completeAll initial done)) = 4 /\
  total_completed (progress (completeAll initial done)) = 3.
Proof.
  intros done.
  assert (H : 1 <= fitness_level (progress initial) <= 100) by (cbn; lia).
  assert (H' : Forall (fun c => 0 <= snd c <= 100) done)
    by (repeat constructor; cbn; lia).
  destruct (completeAll_closed_form done initial H H') as [Hs [Hf [Ht _]]].
  split; [exact H|]. split; [exact H'|].
  split; [exact Hs|]. split; [exact Hf | exact Ht].
Defined.

Lemma completeAll_total (done : list (string * Z)) (st : State) :
  total_completed (progress st) = Z.of_nat (length (table st)) ->
  total_completed (progress (completeAll st done))
  = Z.of_nat (length (table (completeAll st done))).
Proof.
  revert st. induction done as [|c done IH]; intros st H; [exact H|].
  apply IH. cbn [completeExercise progress table total_completed].
  rewrite length_app, Nat2Z.inj_add. cbn [length]. lia.
Qed.

(** X12: Reloading after a session changes nothing: when the total shown is the
    number of rows stored and a reload would leave the state as it is
    (which holds of the component as mounted), the progress read back
    after any session whose rows were stored is the progress the session
    left on screen. *)
Theorem loadProgress_round_trip (st : State) (done : list (string * Z)) :
  total_completed (progress st) = Z.of_nat (length (table st)) ->
  loadProgress st = st ->
  loadProgress (completeAll st done) = completeAll st done.
Proof.
  intros Htotal Hload.
  destruct done as [|c done _] using rev_ind; [exact Hload|].
  rewrite completeAll_snoc.
  pose proof (completeAll_total done st Htotal) as Hsync.
  set (st' := completeAll st done) in *.
  unfold loadProgress, completeExercise. cbn [table progress activeExercise].
  rewrite rev_app_distr. cbn [rev app row_streak_count row_fitness_level].
  rewrite length_app, Nat2Z.inj_add, <- Hsync. reflexivity.
Qed.

Lemma loadProgress_round_trip_witness :
  let done := [("box-breathing", 88); ("focus", 61)]%string in
  total_completed (progress initial) = Z.of_nat (length (table initial)) /\
  loadProgress initial = initial /\
  loadProgress (completeAll initial done) = completeAll initial done.
Proof.
  intros done.
  assert (H1 : total_completed (progress initial)
               = Z.of_nat (length (table initial))) by reflexivity.
  assert (H2 : loadProgress initial = initial) by reflexivity.
  split; [exact H1|]. split; [exact H2|].
  exact (loadProgress_round_trip initial done H1 H2).
Defined.

(** X13: The score handed over when the timer ends is an integer from 60
    to 99, whatever [Math.random] draws, so it passes the check
    0 <= score <= 100 of the table: the binary64 product of a draw below 1
    with 40 never rounds up to 40, and the sum with 60 is exact. *)
Theorem timerScore_range (rnd : number) :
  is_draw rnd = true ->
  exists k : Z, timerScore rnd = of_Z k /\ 60 <= k <= 99.
Proof.
  intros Hdraw. unfold timerScore.
  destruct (floor_scaled_draw rnd 40 Hdraw) as [k [Hk ->]]; [reflexivity|].
  exists (k + 60). split; [|lia].
  apply add_of_Z; [lia | lia |].
  assert (2 ^ 53 = 9007199254740992) by reflexivity. lia.
Qed.

(** The draw 0.825: its product with 40 rounds to 33. *)
Lemma timerScore_range_witness :
  is_draw (lit 825 1000) = true /\ timerScore (lit 825 1000) = of_Z 93 /\
  exists k : Z, timerScore (lit 825 1000) = of_Z k /\ 60 <= k <= 99.
Proof.
  assert (Ha : is_draw (lit 825 1000) = true) by (vm_compute; reflexivity).
  split; [exact Ha|]. split; [vm_compute; reflexivity|].
  exact (timerScore_range (lit 825 1000) Ha).
Defined.

Lemma timerStep_invariant (duration : Z) (t : Timer) (ev : TimerEvent) :
  0 <= duration ->
  0 <= seconds t <= duration /\ (isActive t = true -> 0 < seconds t) ->
  0 <= seconds (timerStep duration t ev) <= duration /\
  (isActive (timerStep duration t ev) = true ->
   0 < seconds (timerStep duration t ev)).
Proof.
  intros Hd [Hs Ha]. unfold timerStep, timerEffect, timerUpdate, ticking.
  destruct t as [s a]. cbn [seconds isActive] in *.
  assert (Ha' : a = false \/ 0 < s)
    by (destruct a; [right; apply Ha; reflexivity | left; reflexivity]).
  clear Ha.
  destruct ev, a; cbn [negb andb seconds isActive];
    repeat match goal with
           | |- context [0 <? ?x] => destruct (Z.ltb_spec 0 x)
           | |- context [?x =? 0] => destruct (Z.eqb_spec x 0)
           | |- _ => progress cbn [negb andb seconds isActive]
           end;
    (split; [|intros E]); cbn [seconds isActive] in *;
    first [ discriminate E | destruct Ha' as [Ha'|Ha']; first [discriminate Ha' | lia] ].
Qed.

(** X14: Whatever is clicked and however often the interval fires, the timer
    shows a time between 0 and the duration, it runs only while time is
    left, and the display minutes:seconds reads as the seconds left. *)
Theorem timer_invariant (duration : Z) (events : list TimerEvent) :
  0 <= duration ->
  let t := timerRun duration events in
  0 <= seconds t <= duration /\
  (isActive t = true -> 0 < seconds t) /\
  0 <= timerRemainingSeconds t < 60 /\
  60 * timerMinutes t + timerRemainingSeconds t = seconds t.
Proof.
  intros Hd t.
  assert (Hinv : 0 <= seconds t <= duration /\
                 (isActive t = true -> 0 < seconds t)).
  { subst t. unfold timerRun.
    assert (H0 : 0 <= seconds (timerEffect (mountTimer duration)) <= duration /\
                 (isActive (timerEffect (mountTimer duration)) = true ->
                  0 < seconds (timerEffect (mountTimer duration)))).
    { unfold timerEffect, mountTimer, ticking. cbn [seconds isActive andb].
      destruct (Z.eqb_spec duration 0); cbn [seconds isActive];
        (split; [lia | intros E; discriminate E]). }
    revert H0. generalize (timerEffect (mountTimer duration)).
    induction events as [|ev events IH]; intros t0 H0; [exact H0|].
    cbn [fold_left]. apply IH. apply timerStep_invariant; assumption. }
  destruct Hinv as [Hs Ha]. split; [exact Hs|]. split; [exact Ha|].
  unfold timerRemainingSeconds, timerMinutes, Math_floor_div.
  rewrite Z.rem_mod_nonneg by lia.
  pose proof (Z.div_mod (seconds t) 60 ltac:(lia)) as Hdiv.
  pose proof (Z.mod_pos_bound (seconds t) 60 ltac:(lia)) as Hmod.
  split; [exact Hmod | lia].
Qed.

Lemma timer_invariant_witness :
  0 <= 90 /\
  seconds (timerRun 90 [Toggle; Tick; Tick; Toggle; Tick; Toggle; Tick]) = 87 /\
  0 <= timerRemainingSeconds
         (timerRun 90 [Toggle; Tick; Tick; Toggle; Tick; Toggle; Tick]) < 60.
Proof.
  assert (H : 0 <= 90) by lia.
  destruct (timer_invariant 90 [Toggle; Tick; Tick; Toggle; Tick; Toggle; Tick] H)
    as [_ [_ [Hrem _]]].
  split; [exact H|]. split; [reflexivity | exact Hrem].
Defined.

Lemma timer_ticks (duration : Z) (n : nat) (t : Timer) :
  isActive t = true -> Z.of_nat n < seconds t ->
  fold_left (timerStep duration) (repeat Tick n) t
  = {| seconds := seconds t - Z.of_nat n; isActive := true |}.
Proof.
  revert t. induction n as [|n IH]; intros [s a] Ha Hn; cbn [seconds isActive] in *.
  { subst a. cbn [repeat fold_left]. f_equal. cbn. lia. }
  subst a. cbn [repeat fold_left].
  assert (Hstep : timerStep duration {| seconds := s; isActive := true |} Tick
                  = {| seconds := s - 1; isActive := true |}).
  { unfold timerStep, timerUpdate, timerEffect, ticking. cbn [seconds isActive andb].
    destruct (Z.ltb_spec 0 s); [|lia]. cbn [seconds isActive andb].
    destruct (Z.ltb_spec 0 (s - 1)); [reflexivity | lia]. }
  rewrite Hstep, IH by (cbn [seconds isActive]; lia || reflexivity).
  cbn [seconds]. f_equal. lia.
Qed.

(** X15: Started and left alone, the timer of a positive duration reaches 0
    after as many ticks as the duration has seconds, and stops there: the
    effect then takes its completion branch, and later ticks are not
    counted. *)
Theorem timer_countdown (duration : Z) (later : nat) :
  0 < duration ->
  let ticks := repeat Tick (Z.to_nat duration) in
  timerRun duration (Toggle :: ticks ++ repeat Tick later)
  = {| seconds := 0; isActive := false |} /\
  completes (timerRun duration (Toggle :: ticks)) = true /\
  (forall n : nat, Z.of_nat n < duration ->
     timerRun duration (Toggle :: repeat Tick n)
     = {| seconds := duration - Z.of_nat n; isActive := true |}).
Proof.
  intros Hd ticks.
  assert (Hstart : timerStep duration (timerEffect (mountTimer duration)) Toggle
                   = {| seconds := duration; isActive := true |}).
  { unfold timerStep, timerUpdate, timerEffect, mountTimer, ticking.
    cbn [seconds isActive andb negb].
    destruct (Z.eqb_spec duration 0); [lia|]. cbn [seconds isActive andb negb].
    destruct (Z.ltb_spec 0 duration); [reflexivity | lia]. }
  assert (Hrun : forall n : nat, Z.of_nat n < duration ->
            timerRun duration (Toggle :: repeat Tick n)
            = {| seconds := duration - Z.of_nat n; isActive := true |}).
  { intros n Hn. unfold timerRun. cbn [fold_left]. rewrite Hstart.
    rewrite timer_ticks by (cbn [seconds isActive]; lia || reflexivity).
    reflexivity. }
  assert (Hend : timerRun duration (Toggle :: ticks)
                 = {| seconds := 0; isActive := false |}).
  { subst ticks.
    assert (Hsplit : Z.to_nat duration = (Z.to_nat (duration - 1) + 1)%nat) by lia.
    rewrite Hsplit, repeat_app. cbn [repeat].
    unfold timerRun in *. rewrite app_comm_cons, fold_left_app.
    rewrite Hrun by lia. cbn [fold_left].
    unfold timerStep, timerUpdate, timerEffect, ticking.
    cbn [seconds isActive andb].
    destruct (Z.ltb_spec 0 (duration - Z.of_nat (Z.to_nat (duration - 1))));
      [|lia].
    cbn [seconds isActive andb].
    replace (duration - Z.of_nat (Z.to_nat (duration - 1)) - 1) with 0 by lia.
    reflexivity. }
  split; [|split; [rewrite Hend; reflexivity | exact Hrun]].
  unfold timerRun in *. rewrite app_comm_cons, fold_left_app, Hend.
  clear. induction later as [|later IH]; [reflexivity|].
  cbn [repeat fold_left]. exact IH.
Qed.

Lemma timer_countdown_witness :
  0 < 3 /\
  timerRun 3 [Toggle; Tick; Tick; Tick; Tick; Tick]
  = {| seconds := 0; isActive := false |}.
Proof.
  assert (H : 0 < 3) by lia.
  destruct (timer_countdown 3 2 H) as [Hend _].
  split; [exact H | exact Hend].
Defined.

End Training.

(* ===================================================================== *)
(** ** CalmCircle: posting to a group                                     *)
(* ===================================================================== *)

Section Community.
Import JS CalmCircle.

(** What the query of [loadPosts] returns to a user. *)
Lemma queryPosts_sound (user : string) (b : Backend) (group : string)
                       (post : Post) :
  post ∈ queryPosts user b group ->
  post ∈ posts b /\ member b user group = true /\ group_id post = group /\
  ai_moderation_status post = "approved"%string.
Proof.
  unfold queryPosts. intros Hin.
  apply elem_of_take in Hin as [i [Hi _]].
  apply list_elem_of_lookup_2, list_elem_of_In, in_rev, list_elem_of_In in Hi.
  apply list_elem_of_filter in Hi as [Hp Hin].
  apply andb_prop in Hp as [Hp Hst]. apply andb_prop in Hp as [Hm Hg].
  apply String.eqb_eq in Hg, Hst. rewrite Hg in Hm. auto.
Qed.

Lemma queryPosts_outsider (user : string) (b : Backend) (group : string) :
  member b user group = false -> queryPosts user b group = [].
Proof.
  intros Hm. destruct (queryPosts user b group) as [|post l] eqn:E; [reflexivity|].
  assert (Hin : post ∈ queryPosts user b group) by (rewrite E; left).
  apply queryPosts_sound in Hin as [_ [Hin _]]. congruence.
Qed.

(** X16: A member who submits a post that is not blank to the selected group:
    the post is stored after the others, as approved and under the name
    of the member; the input is cleared; and the posts then shown start
    with the new post, are at most twenty, and are all approved posts of
    the selected group. *)
Theorem submitPost_round_trip (user : string) (b : Backend) (st : State)
                              (group : string) :
  selectedGroup st = Some group -> group <> EmptyString ->
  blank (newPost st) = false ->
  member b user group = true ->
  let post := {| post_user := user; group_id := group;
                 content := newPost st;
                 ai_moderation_status := "approved" |} in
  let r := submitPost user b st in
  posts (fst r) = posts b ++ [post] /\
  memberships (fst r) = memberships b /\
  newPost (snd r) = EmptyString /\
  selectedGroup (snd r) = Some group /\
  head (shownPosts (snd r)) = Some post /\
  (length (shownPosts (snd r)) <= 20)%nat /\
  Forall (fun shown => shown ∈ posts (fst r) /\ group_id shown = group /\
                       ai_moderation_status shown = "approved"%string)
         (shownPosts (snd r)).
Proof.
  intros Hsel Hne Hblank Hmem post r. subst r.
  assert (Hchosen : chosenGroup st = Some group).
  { unfold chosenGroup. rewrite Hsel.
    destruct (String.eqb_spec group EmptyString); [contradiction | reflexivity]. }
  unfold submitPost. rewrite Hchosen, Hblank, Hmem.
  unfold loadPosts, chosenGroup. cbn [selectedGroup]. rewrite Hsel.
  destruct (String.eqb_spec group EmptyString) as [|_]; [contradiction|].
  cbn [fst snd posts memberships newPost selectedGroup shownPosts].
  fold post.
  set (b' := {| memberships := memberships b; posts := posts b ++ [post] |}).
  split; [reflexivity|]. split; [reflexivity|]. split; [reflexivity|].
  split; [reflexivity|].
  assert (Hmem' : member b' user group = true) by exact Hmem.
  split; [|split].
  - unfold queryPosts. cbn [posts b']. rewrite filter_app.
    rewrite (filter_cons_True _ post []).
    + rewrite filter_nil, rev_app_distr. reflexivity.
    + cbn [group_id ai_moderation_status post]. rewrite Hmem'.
      rewrite String.eqb_refl. reflexivity.
  - unfold queryPosts. rewrite length_take. lia.
  - apply Forall_forall. intros shown Hin.
    apply queryPosts_sound in Hin as [Hin [_ [Hg Hs]]]. auto.
Qed.

Lemma submitPost_round_trip_witness :
  let b := {| memberships := [("ana", "sleep"); ("ben", "sleep")];
              posts := [ {| post_user := "ben"; group_id := "sleep";
                            content := "Slept eight hours";
                            ai_moderation_status := "approved" |};
                         {| post_user := "ben"; group_id := "sleep";
                            content := "spam";
                            ai_moderation_status := "flagged" |} ] |}%string in
  let st := {| selectedGroup := Some "sleep"; newPost := "Me too";
               shownPosts := [] |}%string in
  selectedGroup st = Some "sleep"%string /\ "sleep"%string <> EmptyString /\
  blank (newPost st) = false /\ member b "ana" "sleep" = true /\
  length (posts (fst (submitPost "ana" b st))) = 3%nat /\
  length (shownPosts (snd (submitPost "ana" b st))) = 2%nat.
Proof.
  intros b st.
  assert (H1 : selectedGroup st = Some "sleep"%string) by reflexivity.
  assert (H2 : "sleep"%string <> EmptyString) by discriminate.
  assert (H3 : blank (newPost st) = false) by reflexivity.
  assert (H4 : member b "ana" "sleep" = true) by (vm_compute; reflexivity).
  destruct (submitPost_round_trip "ana" b st "sleep" H1 H2 H3 H4)
    as [Hposts _].
  split; [exact H1|]. split; [exact H2|]. split; [exact H3|].
  split; [exact H4|]. split.
  - rewrite Hposts. reflexivity.
  - vm_compute. reflexivity.
Defined.

(** X17: What posting never does.  A submission stores at most one post, under
    the name of the user, to a group the user is a member of, and leaves
    the memberships as they are.  Nothing at all happens without a
    selected group or with a blank text.  And the post of a user who is
    not a member of the selected group is dropped without a word: the
    backend stays as it is while the input is cleared and no post is
    shown. *)
Theorem submitPost_guarded (user : string) (b : Backend) (st : State) :
  let r := submitPost user b st in
  memberships (fst r) = memberships b /\
  (exists added : list Post,
      posts (fst r) = posts b ++ added /\ (length added <= 1)%nat /\
      Forall (fun post => post_user post = user /\
                          member b user (group_id post) = true /\
                          blank (content post) = false /\
                          ai_moderation_status post = "approved"%string)
             added) /\
  (chosenGroup st = None \/ blank (newPost st) = true -> r = (b, st)) /\
  (forall group : string,
      chosenGroup st = Some group -> blank (newPost st) = false ->
      member b user group = false ->
      fst r = b /\ newPost (snd r) = EmptyString /\ shownPosts (snd r) = []).
Proof.
  intros r. subst r. unfold submitPost.
  destruct (chosenGroup st) as [group|] eqn:Hchosen.
  2:{ cbn [fst snd]. split; [reflexivity|]. split.
      - exists []. rewrite app_nil_r. repeat split; [cbn; lia | constructor].
      - split; [reflexivity | intros group Hg; discriminate Hg]. }
  destruct (blank (newPost st)) eqn:Hblank.
  { cbn [fst snd]. split; [reflexivity|]. split.
    - exists []. rewrite app_nil_r. repeat split; [cbn; lia | constructor].
    - split; [reflexivity | intros g _ Hb; discriminate Hb]. }
  assert (Hload : forall b', loadPosts user b'
            {| selectedGroup := selectedGroup st;
               newPost := EmptyString;
               shownPosts := shownPosts st |}
          = {| selectedGroup := selectedGroup st;
               newPost := EmptyString;
               shownPosts := queryPosts user b' group |}).
  { intros b'. unfold loadPosts.
    change (chosenGroup {| selectedGroup := selectedGroup st;
                           newPost := EmptyString;
                           shownPosts := shownPosts st |})
      with (chosenGroup st).
    rewrite Hchosen. reflexivity. }
  rewrite Hload. cbn [fst snd newPost shownPosts].
  destruct (member b user group) eqn:Hmem; cbn [memberships posts].
  - split; [reflexivity|]. split.
    + eexists [_]. split; [reflexivity|]. split; [cbn; lia|].
      constructor; [|constructor].
      cbn [post_user group_id content ai_moderation_status]. auto.
    + split; [intros [H|H]; discriminate H|].
      intros g Hg _ Hout. injection Hg as <-. congruence.
  - split; [reflexivity|]. split.
    + exists []. rewrite app_nil_r. repeat split; [cbn; lia | constructor].
    + split; [intros [H|H]; discriminate H|].
      intros g Hg _ Hout. injection Hg as <-.
      split; [reflexivity|]. split; [reflexivity|].
      apply queryPosts_outsider. exact Hmem.
Qed.

Lemma submitPost_guarded_witness :
  let b := {| memberships := [("ben", "sleep")];
              posts := [ {| post_user := "ben"; group_id := "sleep";
                            content := "Slept eight hours";
                            ai_moderation_status := "approved" |} ] |}%string in
  let st := {| selectedGroup := Some "sleep"; newPost := "Me too";
               shownPosts := [] |}%string in
  chosenGroup st = Some "sleep"%string /\ blank (newPost st) = false /\
  member b "ana" "sleep" = false /\
  fst (submitPost "ana" b st) = b /\
  newPost (snd (submitPost "ana" b st)) = EmptyString /\
  shownPosts (snd (submitPost "ana" b st)) = [].
Proof.
  intros b st.
  assert (H1 : chosenGroup st = Some "sleep"%string) by reflexivity.
  assert (H2 : blank (newPost st) = false) by reflexivity.
  assert (H3 : member b "ana" "sleep" = false) by (vm_compute; reflexivity).
  destruct (submitPost_guarded "ana" b st) as [_ [_ [_ H]]].
  split; [exact H1|]. split; [exact H2|]. split; [exact H3|].
  exact (H "sleep"%string H1 H2 H3).
Defined.

End Community.

(* ===================================================================== *)
(** ** Dashboard: the score over the stored rows, its display, the daily  *)
(** ** flow                                                               *)
(* ===================================================================== *)

Section DashboardScore.
Import JS Dashboard.

Lemma sum_number_exact (l : list Z) :
  Forall (fun z => 0 <= z) l -> sumZ l < 2 ^ 53 ->
  sum_number l = of_Z (sumZ l).
Proof.
  intros Hl Hsum. unfold sum_number.
  rewrite (reduce_exact (fun r : Z => r) l); rewrite ?map_id; auto.
Qed.

Lemma sumZ_range (lo hi : Z) (l : list Z) :
  Forall (fun z => lo <= z <= hi) l ->
  lo * Z.of_nat (length l) <= sumZ l <= hi * Z.of_nat (length l).
Proof.
  intros H. pose proof (sumZ_bounds (fun r : Z => r) lo hi l H) as Hb.
  rewrite map_id in Hb. exact Hb.
Qed.

Lemma stress_guards_all :
  forallb (fun k => gt (of_Z k) zero
                    && Bool.eqb (le (of_Z k) (of_Z 5)) (k <=? 5)
                    && Bool.eqb (gt (of_Z k) (of_Z 5)) (5 <? k))
          (zrange 1 10) = true.
Proof. vm_compute. reflexivity. Qed.

(** The stress points of the score, by the readings. *)
Lemma stress_points (l : list Z) :
  (length l <= 7)%nat -> Forall (fun level => 1 <= level <= 10) l ->
  let avg := if (0 <? length l)%nat
             then Math_round (div (sum_number l) (of_Z (Z.of_nat (length l))))
             else zero in
  (if gt avg zero && le avg (of_Z 5) then 20
   else if gt avg (of_Z 5) then 10 else 0)
  = (if Z.of_nat (length l) =? 0 then 0
     else if 2 * sumZ l <? 11 * Z.of_nat (length l) then 20 else 10).
Proof.
  intros Hlen Hall avg. subst avg.
  destruct l as [|z l']; [reflexivity|].
  set (l := z :: l') in *.
  assert (Hn : 1 <= Z.of_nat (length l) <= 7) by (cbn in *; lia).
  destruct (Nat.ltb_spec 0 (length l)) as [_|H]; [|lia].
  destruct (Z.eqb_spec (Z.of_nat (length l)) 0) as [H|_]; [lia|].
  pose proof (sumZ_range 1 10 l Hall) as Hs.
  rewrite sum_number_exact;
    [| eapply Forall_impl; [exact Hall | cbn; intros; lia]
     | assert (2 ^ 53 = 9007199254740992) by reflexivity; lia].
  rewrite stress_mean_exact by lia.
  set (n := Z.of_nat (length l)) in *. set (s := sumZ l) in *.
  pose proof (nearest_bounds n s ltac:(lia)) as Hk.
  set (k := (2 * s + n) / (2 * n)) in *.
  assert (Hkr : 1 <= k <= 10) by nia.
  pose proof stress_guards_all as G. rewrite forallb_forall in G.
  specialize (G k (zrange_In _ _ _ Hkr)).
  apply andb_prop in G as [G G3]. apply andb_prop in G as [G1 G2].
  apply Bool.eqb_prop in G2, G3. rewrite G1, G2, G3. cbn [andb].
  destruct (Z.leb_spec k 5), (Z.ltb_spec 5 k), (Z.ltb_spec (2 * s) (11 * n));
    first [reflexivity | nia].
Qed.

Lemma or_default_0 (x : option Z) : or_default x 0 = default 0 x.
Proof.
  destruct x as [v|]; [|reflexivity]. cbn.
  destruct (Z.eqb_spec v 0); congruence.
Qed.

Lemma shown_score (b : Backend) :
  let d := readDashboardData b in
  wellnessScore (snd (loadDashboardData b))
  = calculatedScore (moodCount d) (exercisesCompleted d)
                    (avgStress d) (avgSleep d) (streakDays d).
Proof.
  intros d. rewrite loadDashboardData_unfold. cbv zeta. fold d.
  destruct (Z.eqb_spec (calculatedScore (moodCount d) (exercisesCompleted d)
                                        (avgStress d) (avgSleep d)
                                        (streakDays d))
                       (wellnessScore d)) as [E|E]; cbn [snd]; [|reflexivity].
  symmetry. exact E.
Qed.

(** X18: The score shown, read off the stored rows.  When the stress levels
    pass the check of their table, the score is
    min(100, b1 + b2 + b3 + b4 + 2 streak) of the last exercise row, where
    b1 is 20 if the user has a journal entry; b2 is 25 if the fitness level
    is positive; b3 is 20 if the last seven readings have a mean level
    below 5.5, 10 if not, and 0 without readings; b4 is the sleep bucket of
    the average sleep read. *)
Theorem dashboard_score_closed_form (b : Backend) :
  Forall (fun level => 1 <= level <= 10) (stress_readings b) ->
  let stress := firstn 7 (stress_readings b) in
  let n := Z.of_nat (length stress) in
  let sleep := avgSleep (readDashboardData b) in
  let latest := default (0, 0) (head (mindgym_progress b)) in
  let b1 := if (0 <? mood_entries b)%nat then 20 else 0 in
  let b2 := if 0 <? snd latest then 25 else 0 in
  let b3 := if n =? 0 then 0
            else if 2 * sumZ stress <? 11 * n then 20 else 10 in
  let b4 := if ge sleep (of_Z 7) && le sleep (of_Z 9) then 25
            else if gt sleep zero then 15 else 0 in
  wellnessScore (snd (loadDashboardData b))
  = Z.min 100 (b1 + b2 + b3 + b4 + 2 * fst latest).
Proof.
  intros Hstress stress n sleep latest b1 b2 b3 b4.
  rewrite shown_score. cbv zeta.
  unfold calculatedScore. rewrite Math_round_Z_id. f_equal.
  fold sleep.
  assert (Havg : avgStress (readDashboardData b)
                 = if (0 <? length stress)%nat
                   then Math_round (div (sum_number stress)
                                        (of_Z (Z.of_nat (length stress))))
                   else zero) by reflexivity.
  rewrite Havg.
  assert (Hm : moodCount (readDashboardData b) = Z.of_nat (mood_entries b))
    by reflexivity.
  assert (He : exercisesCompleted (readDashboardData b)
               = or_default (snd <$> head (mindgym_progress b)) 0)
    by reflexivity.
  assert (Hd : streakDays (readDashboardData b)
               = or_default (fst <$> head (mindgym_progress b)) 0)
    by reflexivity.
  rewrite Hm, He, Hd. clearbody sleep.
  assert (Hl : (length stress <= 7)%nat)
    by (subst stress; rewrite length_take; lia).
  assert (Hs : Forall (fun level => 1 <= level <= 10) stress)
    by (subst stress; apply Forall_take; exact Hstress).
  pose proof (stress_points stress Hl Hs) as H3. cbv zeta in H3.
  rewrite H3. rewrite !or_default_0.
  subst b1 b2 b3 b4 n latest.
  assert (Hmood : (0 <? Z.of_nat (mood_entries b)) = (0 <? mood_entries b)%nat).
  { destruct (Nat.ltb_spec 0 (mood_entries b));
      [apply Z.ltb_lt; lia | apply Z.ltb_ge; lia]. }
  rewrite Hmood.
  destruct (head (mindgym_progress b)) as [[streak fitness]|];
    cbn [fmap option_fmap option_map default from_option id fst snd];
    rewrite (Z.mul_comm _ 2); reflexivity.
Qed.

Lemma dashboard_score_closed_form_witness :
  let b := {| profile := Some (Some 50); mood_entries := 2;
              mindgym_progress := [(3, 4); (2, 3)];
              stress_readings := [7; 5; 5; 5];
              sleep_sessions := [400; 420; 431] |} in
  Forall (fun level => 1 <= level <= 10) (stress_readings b) /\
  wellnessScore (snd (loadDashboardData b)) = 20 + 25 + 10 + 25 + 2 * 3.
Proof.
  intros b.
  assert (H1 : Forall (fun level => 1 <= level <= 10) (stress_readings b))
    by (repeat constructor; lia).
  split; [exact H1|].
  rewrite (dashboard_score_closed_form b H1). vm_compute. reflexivity.
Defined.

Lemma calculatedScore_range (m e : Z) (s l : number) (d : Z) :
  Z.min 100 (2 * d) <= calculatedScore m e s l d <= Z.min 100 (90 + 2 * d).
Proof.
  unfold calculatedScore. rewrite Math_round_Z_id.
  destruct (0 <? m), (0 <? e), (gt s zero && le s (of_Z 5)), (gt s (of_Z 5)),
           (ge l (of_Z 7) && le l (of_Z 9)), (gt l zero); lia.
Qed.

(** X19: The score never exceeds 100.  It is at least what the streak alone
    gives and at most 90 points more, so a score of 100 needs a streak of 5
    days, and a streak of 50 days gives 100 whatever the rest; and a
    longer streak never lowers the score. *)
Theorem wellness_score_bounds (m e : Z) (s l : number) (d : Z) :
  calculatedScore m e s l d <= 100 /\
  Z.min 100 (2 * d) <= calculatedScore m e s l d <= Z.min 100 (90 + 2 * d) /\
  (forall d' : Z,
      d <= d' -> calculatedScore m e s l d <= calculatedScore m e s l d').
Proof.
  pose proof (calculatedScore_range m e s l d) as Hrange.
  split; [lia|]. split; [exact Hrange|].
  intros d' Hd. unfold calculatedScore. rewrite !Math_round_Z_id. lia.
Qed.

Lemma wellness_score_bounds_witness :
  3 <= 4 /\
  calculatedScore 5 10 (of_Z 4) (of_Z 8) 3
  <= calculatedScore 5 10 (of_Z 4) (of_Z 8) 4.
Proof.
  assert (H : 3 <= 4) by lia.
  destruct (wellness_score_bounds 5 10 (of_Z 4) (of_Z 8) 3) as [_ [_ Hmono]].
  split; [exact H | exact (Hmono 4 H)].
Defined.

(** X20: The colour of the score card and its label change together: green
    with "Excellent", yellow with "Good", red with "Fair" and with
    "Needs Attention". *)
Theorem score_colour_matches_label (score : Z) :
  (getScoreColor score = "from-green-400 to-emerald-400"%string
   <-> getScoreLabel score = "Excellent"%string) /\
  (getScoreColor score = "from-yellow-400 to-orange-400"%string
   <-> getScoreLabel score = "Good"%string) /\
  (getScoreColor score = "from-red-400 to-pink-400"%string
   <-> getScoreLabel score = "Fair"%string \/
       getScoreLabel score = "Needs Attention"%string).
Proof.
  unfold getScoreColor, getScoreLabel.
  destruct (75 <=? score); [|destruct (50 <=? score); [|destruct (25 <=? score)]];
    (split; [|split]);
    (split; [intros E; first [discriminate E | reflexivity
                             | left; reflexivity | right; reflexivity]
            | intros E; first [reflexivity | discriminate E
                              | destruct E as [E|E]; discriminate E]]).
Qed.

(** X21: Is the score shown the score stored?  Without a profile row nothing is
    stored.  With one, and streaks that are not negative, the score shown
    lies between 0 and 100 and is the score stored after the load, with one
    exception: a computed score of 50 over a stored score that is null or
    0 is shown and not stored.  The other tables are never written. *)
Theorem loadDashboardData_stores_shown (b : Backend) :
  let r := loadDashboardData b in
  let shown := wellnessScore (snd r) in
  mood_entries (fst r) = mood_entries b /\
  mindgym_progress (fst r) = mindgym_progress b /\
  stress_readings (fst r) = stress_readings b /\
  sleep_sessions (fst r) = sleep_sessions b /\
  (profile b = None -> fst r = b) /\
  (forall stored : option Z,
      profile b = Some stored ->
      Forall (fun row => 0 <= fst row) (mindgym_progress b) ->
      0 <= shown <= 100 /\
      (profile (fst r) = Some (Some shown) \/
       (shown = 50 /\ (stored = None \/ stored = Some 0) /\ fst r = b))).
Proof.
  intros r shown.
  assert (Hshown : shown = calculatedScore
                     (moodCount (readDashboardData b))
                     (exercisesCompleted (readDashboardData b))
                     (avgStress (readDashboardData b))
                     (avgSleep (readDashboardData b))
                     (streakDays (readDashboardData b)))
    by (apply shown_score).
  subst r. rewrite loadDashboardData_unfold in *. cbv zeta in *.
  set (d := readDashboardData b) in *.
  set (c := calculatedScore _ _ _ _ _) in *.
  assert (Hframe : forall v,
            mood_entries (update_wellness_score b v) = mood_entries b /\
            mindgym_progress (update_wellness_score b v) = mindgym_progress b /\
            stress_readings (update_wellness_score b v) = stress_readings b /\
            sleep_sessions (update_wellness_score b v) = sleep_sessions b).
  { intros v. unfold update_wellness_score.
    destruct (profile b); [destruct ((0 <=? v) && (v <=? 100))|];
      repeat split. }
  destruct (Z.eqb_spec c (wellnessScore d)) as [E|E]; cbn [fst snd] in *.
  - repeat (split; [reflexivity|]). intros stored Hprof Hstreak.
    pose proof (calculatedScore_range (moodCount d) (exercisesCompleted d)
                  (avgStress d) (avgSleep d) (streakDays d)) as Hlo.
    fold c in Hlo.
    assert (Hs : 0 <= streakDays d).
    { unfold d, readDashboardData. cbn [streakDays]. rewrite or_default_0.
      destruct (mindgym_progress b) as [|row rows]; [cbn; lia|].
      apply Forall_cons in Hstreak as [Hrow _]. exact Hrow. }
    split; [lia|].
    assert (Hread : wellnessScore d = or_default stored 50)
      by (unfold d, readDashboardData; cbn [wellnessScore];
          rewrite Hprof; reflexivity).
    destruct stored as [v|]; cbn [or_default] in Hread.
    + destruct (Z.eqb_spec v 0) as [->|Hv].
      * right. split; [lia|]. split; [right; reflexivity | reflexivity].
      * left. rewrite Hprof. f_equal. f_equal. lia.
    + right. split; [lia|]. split; [left; reflexivity | reflexivity].
  - destruct (Hframe c) as [H1 [H2 [H3 H4]]].
    split; [exact H1|]. split; [exact H2|]. split; [exact H3|].
    split; [exact H4|]. split.
    { intros Hnone. unfold update_wellness_score. rewrite Hnone. reflexivity. }
    intros stored Hprof Hstreak.
    pose proof (calculatedScore_range (moodCount d) (exercisesCompleted d)
                  (avgStress d) (avgSleep d) (streakDays d)) as Hlo.
    fold c in Hlo.
    assert (Hs : 0 <= streakDays d).
    { unfold d, readDashboardData. cbn [streakDays]. rewrite or_default_0.
      destruct (mindgym_progress b) as [|row rows]; [cbn; lia|].
      apply Forall_cons in Hstreak as [Hrow _]. exact Hrow. }
    split; [cbn [setWellnessScore wellnessScore] in *; lia|].
    left. cbn [setWellnessScore wellnessScore] in Hshown |- *.
    unfold update_wellness_score. rewrite Hprof.
    destruct (Z.leb_spec 0 c), (Z.leb_spec c 100); cbn [andb profile];
      first [lia | rewrite Hshown; reflexivity].
Qed.

Lemma loadDashboardData_stores_shown_witness :
  let b := {| profile := Some None; mood_entries := 2;
              mindgym_progress := [(3, 4); (2, 3)];
              stress_readings := [7; 5; 5; 5];
              sleep_sessions := [400; 420; 431] |} in
  profile b = Some None /\
  Forall (fun row => 0 <= fst row) (mindgym_progress b) /\
  wellnessScore (snd (loadDashboardData b)) = 86 /\
  profile (fst (loadDashboardData b)) = Some (Some 86).
Proof.
  intros b.
  assert (H1 : profile b = Some None) by reflexivity.
  assert (H2 : Forall (fun row => 0 <= fst row) (mindgym_progress b))
    by (repeat constructor; cbn; lia).
  assert (H3 : wellnessScore (snd (loadDashboardData b)) = 86)
    by (vm_compute; reflexivity).
  split; [exact H1|]. split; [exact H2|]. split; [exact H3|].
  destruct (loadDashboardData_stores_shown b) as [_ [_ [_ [_ [_ H]]]]].
  destruct (H None H1 H2) as [_ [Hstored | [H50 _]]].
  - rewrite Hstored, H3. reflexivity.
  - rewrite H3 in H50. discriminate H50.
Defined.

(** X22: The daily flow.  A load never touches the routine of another day nor
    a routine that exists; after it the routine of the day exists; and a
    second load stores nothing more and shows what the first showed. *)
Theorem loadDailyFlow_idempotent (today : string)
                                 (routines : gmap string Routine) :
  let r := loadDailyFlow today routines in
  loadDailyFlow today (fst r) = (fst r, snd r) /\
  is_Some (fst r !! today) /\
  (forall day : string, day <> today -> fst r !! day = routines !! day) /\
  (is_Some (routines !! today) -> fst r = routines) /\
  (routines !! today = None ->
   snd r = (false, defaultTasks) /\
   fst r !! today = Some {| routine_tasks := Some defaultTasks;
                            completed := false |}).
Proof.
  intros r. subst r. unfold loadDailyFlow.
  destruct (routines !! today) as [routine|] eqn:E; cbn [fst snd].
  - rewrite E. split; [reflexivity|]. split; [eauto|].
    split; [reflexivity|]. split; [reflexivity | intros H; discriminate H].
  - rewrite lookup_insert_eq. cbn [completed routine_tasks default from_option id].
    split; [reflexivity|]. split; [eauto|]. split.
    + intros day Hday. apply lookup_insert_ne. congruence.
    + split; [intros [x Hx]; discriminate Hx | intros _; split; reflexivity].
Qed.

Lemma loadDailyFlow_idempotent_witness :
  "2024-01-02"%string <> "2024-01-03"%string /\
  fst (loadDailyFlow "2024-01-03"
         {[ "2024-01-02"%string := {| routine_tasks := None;
                                      completed := true |} ]})
    !! "2024-01-02"%string
  = Some {| routine_tasks := None; completed := true |}.
Proof.
  assert (H : "2024-01-02"%string <> "2024-01-03"%string) by discriminate.
  destruct (loadDailyFlow_idempotent "2024-01-03"
              {[ "2024-01-02"%string := {| routine_tasks := None;
                                           completed := true |} ]})
    as [_ [_ [Hframe _]]].
  split; [exact H|]. rewrite (Hframe _ H). apply lookup_singleton_eq.
Defined.

End DashboardScore.
